(** * Subscription service: handlers, date helpers and the subscriptions table

    A shallow embedding of [handlers/handlers.go], of the request and
    response structures of package [models] and of the [subscriptions]
    table of the migration, with the properties of the service proved
    over it.

    - [time]     : the fragment of Go's [time] package that the handlers
                   use, specialised to the one layout ["01-2006"];
    - [models]   : the request/response structures and their binding rules;
    - [db]       : the table, keyed by its primary key, and the meaning of
                   the six SQL statements that the handlers issue;
    - [handlers] : the six handlers, each a validation phase followed by at
                   most one statement and the shaping of the response. *)

From stdpp Require Import gmap strings list fin_maps.
From Stdlib Require Import ZArith Ascii String Lia.

Open Scope string_scope.
Open Scope Z_scope.

(** Go's [(value, err)] results. *)
Inductive result (E A : Type) : Type :=
| Ok (a : A)
| Err (e : E).
Arguments Ok {E A} a.
Arguments Err {E A} e.

(* ===================================================================== *)
(** ** Package [time], layout ["01-2006"] *)
(* ===================================================================== *)

Module time.

(** A wall-clock instant.  Every instant the service handles is in UTC
    ([time.Parse] without a zone yields UTC, and a TIMESTAMP column is read
    back as UTC), so the location is not represented.  [Clock] is the time
    of day in nanoseconds since midnight. *)
Record Time : Type := mkTime { Year : Z; Month : Z; Day : Z; Clock : Z }.

(** [time.Time{}]: January 1, year 1, 00:00:00 UTC. *)
Definition zero : Time := mkTime 1 1 1 0.

(** [time.Date(year, month, day, 0, 0, 0, 0, loc)].  The handlers call it
    with the year and month of an existing instant and day 1, where Go's
    normalisation of out-of-range fields is the identity. *)
Definition Date (year month day : Z) : Time := mkTime year month day 0.

(** Chronological order, as [t.Compare(u)] and as the comparison of two
    timestamps in the store. *)
Definition compare (t u : Time) : comparison :=
  match Year t ?= Year u with
  | Eq => match Month t ?= Month u with
          | Eq => match Day t ?= Day u with
                  | Eq => Clock t ?= Clock u
                  | c => c
                  end
          | c => c
          end
  | c => c
  end.

Definition leb (t u : Time) : bool :=
  match compare t u with Gt => false | _ => true end.

(** *** Bytes of a string *)

Definition byte (c : ascii) : Z := Z.of_N (N_of_ascii c).

Definition is_digit (c : ascii) : bool := (48 <=? byte c) && (byte c <=? 57).

Definition digit_val (c : ascii) : Z := byte c - 48.

Definition digit_char (d : Z) : ascii := ascii_of_N (Z.to_N (48 + d)).

(** [s[n:]] *)
Fixpoint drop (n : nat) (s : string) : string :=
  match n, s with
  | S n', String _ s' => drop n' s'
  | _, _ => s
  end.

(** [s[i]] as a digit value; only read where [isDigit s i] holds. *)
Definition digit_at (s : string) (i : nat) : Z :=
  match String.get i s with
  | Some c => digit_val c
  | None => 0
  end.

(** *** Parsing ([format_parse.go]) *)

Inductive ParseError : Type :=
| errBad           (* bad value for field *)
| errAtoi          (* time: invalid number *)
| errLeadingInt    (* time: bad [0-9]* *)
| errMonthRange    (* month out of range *)
| errExtraText.    (* extra text after the last field *)

(** [isDigit(s, i)]: index in range and ['0' <= s[i] <= '9']. *)
Definition isDigit (s : string) (i : nat) : bool :=
  match String.get i s with
  | Some c => is_digit c
  | None => false
  end.

(** [getnum(s, fixed)]: a one- or two-digit number; two digits are
    mandatory when [fixed]. *)
Definition getnum (s : string) (fixed : bool) : result ParseError (Z * string) :=
  if negb (isDigit s 0) then Err errBad
  else if negb (isDigit s 1) then
    if fixed then Err errBad else Ok (digit_at s 0, drop 1 s)
  else Ok (digit_at s 0 * 10 + digit_at s 1, drop 2 s).

(** [skip(value, prefix)] for a prefix without spaces: the value must
    start with the prefix, byte for byte. *)
Fixpoint skip (value prefix : string) : result ParseError string :=
  match prefix with
  | EmptyString => Ok value
  | String p prefix' =>
      match value with
      | String v value' =>
          if Ascii.eqb v p then skip value' prefix' else Err errBad
      | EmptyString => Err errBad
      end
  end.

(** [leadingInt(s)]: the leading run of digits as a number, and the rest;
    fails when the number passes 2^63. *)
Fixpoint leadingInt (s : string) (x : Z) : result ParseError (Z * string) :=
  match s with
  | String c s' =>
      if negb (is_digit c) then Ok (x, s)
      else if 2 ^ 63 / 10 <? x then Err errLeadingInt
      else
        let x' := x * 10 + digit_val c in
        if 2 ^ 63 <? x' then Err errLeadingInt else leadingInt s' x'
  | EmptyString => Ok (x, s)
  end.

(** [atoi(s)]: an optional sign, then digits up to the end of [s]. *)
Definition atoi (s : string) : result ParseError Z :=
  let '(neg, s) :=
    match s with
    | String c s' =>
        if Ascii.eqb c "-" then (true, s')
        else if Ascii.eqb c "+" then (false, s')
        else (false, s)
    | EmptyString => (false, s)
    end in
  match leadingInt s 0 with
  | Ok (q, EmptyString) => Ok (if neg : bool then - q else q)
  | _ => Err errAtoi
  end.

(** [time.Parse("01-2006", value)].  The layout has three chunks: the
    zero-padded month, the literal ["-"] before the four-digit year, and
    the end of the layout, where no text may remain.  The day defaults to
    1, which is a valid day of every month, and the zone to UTC. *)
Definition Parse_01_2006 (value : string) : result ParseError Time :=
  match getnum value true with
  | Err e => Err e
  | Ok (month, value) =>
      if (month <=? 0) || (12 <? month) then Err errMonthRange
      else
        match skip value "-" with
        | Err e => Err e
        | Ok value =>
            if (String.length value <? 4)%nat || negb (isDigit value 0)
            then Err errBad
            else
              match atoi (String.substring 0 4 value) with
              | Err e => Err e
              | Ok year =>
                  match drop 4 value with
                  | EmptyString => Ok (Date year month 1)
                  | String _ _ => Err errExtraText
                  end
              end
        end
  end.

(** *** Formatting ([format.go]) *)

(** The decimal digits of [u >= 0], written from the right into a 20-byte
    buffer. *)
Fixpoint decimal (fuel : nat) (u : Z) (buf : string) : string :=
  match fuel with
  | O => buf
  | S fuel' =>
      if 10 <=? u
      then decimal fuel' (u / 10) (String (digit_char (u mod 10)) buf)
      else String (digit_char u) buf
  end.

Fixpoint zeros (n : nat) : string :=
  match n with
  | O => EmptyString
  | S n' => String "0" (zeros n')
  end.

(** [appendInt(b, x, width)]: a minus sign for a negative [x], then the
    decimal digits of its magnitude, zero-padded to [width]. *)
Definition appendInt (x : Z) (width : nat) : string :=
  let digits := decimal 20 (Z.abs x) EmptyString in
  (if x <? 0 then "-" else "")
    +:+ zeros (width - String.length digits) +:+ digits.

(** [t.Format("01-2006")] *)
Definition Format_01_2006 (t : Time) : string :=
  appendInt (Month t) 2 +:+ "-" +:+ appendInt (Year t) 4.

End time.
Import time.

(* ===================================================================== *)
(** ** Package [models] and the binding rules of its tags *)
(* ===================================================================== *)

Module models.

(** The response record; [EndDate] carries [omitempty]. *)
Record Subscription : Type := mkSubscription {
  sub_ServiceName : string;
  sub_Price : Z;
  sub_UserID : string;
  sub_StartDate : string;
  sub_EndDate : string
}.

(** The request body.  An absent JSON field leaves Go's zero value:
    [""] or [0]. *)
Record SubscriptionRequest : Type := mkSubscriptionRequest {
  req_ServiceName : string;    (* binding:"required" *)
  req_Price : Z;               (* binding:"required,min=0" *)
  req_StartDate : string;      (* binding:"required" *)
  req_EndDate : string
}.

Record CompositeKey : Type := mkCompositeKey {
  key_UserID : string;         (* binding:"required,uuid" *)
  key_ServiceName : string     (* binding:"required" *)
}.

(** The query parameters of the total-cost request; no binding tag. *)
Record FilterParams : Type := mkFilterParams {
  flt_UserID : string;
  flt_ServiceName : string;
  flt_StartDate : string;
  flt_EndDate : string
}.

Record TotalCostResponse : Type := mkTotalCostResponse { TotalCost : Z }.

(** *** The validator behind the [binding] tags

    A field's tags are tried from left to right and the first one that
    fails is reported, one report per failing field. *)
Record FieldError : Type := mkFieldError { fe_field : string; fe_tag : string }.

(** [required] on a string: not the zero value. *)
Definition required_string (field value : string) : list FieldError :=
  if String.eqb value "" then [mkFieldError field "required"] else [].

Definition is_hex (c : ascii) : bool :=
  is_digit c || ((97 <=? byte c) && (byte c <=? 102)).

(** [n] lower-case hexadecimal digits at the head of [s]; the rest. *)
Fixpoint hex_run (n : nat) (s : string) : option string :=
  match n with
  | O => Some s
  | S n' =>
      match s with
      | String c s' => if is_hex c then hex_run n' s' else None
      | EmptyString => None
      end
  end.

Definition dash (s : string) : option string :=
  match s with
  | String c s' => if Ascii.eqb c "-" then Some s' else None
  | EmptyString => None
  end.

(** [uuid]: the whole value is 8-4-4-4-12 lower-case hexadecimal digits,
    [^[0-9a-f]{8}-[0-9a-f]{4}-[0-9a-f]{4}-[0-9a-f]{4}-[0-9a-f]{12}$]. *)
Fixpoint hex_groups (sizes : list nat) (s : string) : option string :=
  match sizes with
  | [] => Some s
  | n :: sizes' =>
      match hex_run n s with
      | None => None
      | Some rest =>
          match sizes' with
          | [] => Some rest
          | _ :: _ =>
              match dash rest with
              | None => None
              | Some rest' => hex_groups sizes' rest'
              end
          end
      end
  end.

Definition is_uuid (s : string) : bool :=
  match hex_groups [8; 4; 4; 4; 12]%nat s with
  | Some EmptyString => true
  | _ => false
  end.

Definition validate_CompositeKey (key : CompositeKey) : list FieldError :=
  (if String.eqb (key_UserID key) "" then [mkFieldError "UserID" "required"]
   else if negb (is_uuid (key_UserID key)) then [mkFieldError "UserID" "uuid"]
   else [])
  ++ required_string "ServiceName" (key_ServiceName key).

(** [required] on an [int] rejects the zero value, so a price of 0 is
    reported as missing; [min=0] then rejects a negative price. *)
Definition validate_SubscriptionRequest (req : SubscriptionRequest) : list FieldError :=
  required_string "ServiceName" (req_ServiceName req)
  ++ (if req_Price req =? 0 then [mkFieldError "Price" "required"]
      else if req_Price req <? 0 then [mkFieldError "Price" "min"]
      else [])
  ++ required_string "StartDate" (req_StartDate req).

(** [json:"...,omitempty"]: the fields of the encoded object. *)
Inductive JSONValue : Type :=
| JString (s : string)
| JNumber (n : Z).

Definition encode_Subscription (sub : Subscription) : list (string * JSONValue) :=
  [ ("service_name", JString (sub_ServiceName sub));
    ("price", JNumber (sub_Price sub));
    ("user_id", JString (sub_UserID sub));
    ("start_date", JString (sub_StartDate sub)) ]
  ++ (if String.eqb (sub_EndDate sub) "" then []
      else [("end_date", JString (sub_EndDate sub))]).

Fixpoint field (name : string) (obj : list (string * JSONValue)) : option JSONValue :=
  match obj with
  | [] => None
  | (n, v) :: obj' => if String.eqb n name then Some v else field name obj'
  end.

End models.
Import models.

(* ===================================================================== *)
(** ** The [subscriptions] table and the statements run against it *)
(* ===================================================================== *)

Module db.

(** The statements are read over the lines of the table, with the types of
    its columns: the primary key, NULL and SQL's three truth values, the
    UUID type of [user_id] and the INTEGER type of [price].  A parameter
    that the store cannot read as the type of its column makes the
    statement fail before it touches any line.  Failures of the connection
    are not modelled: a statement fails on a duplicate key or on a
    parameter of the wrong type, and not otherwise.  The TEXT column is
    taken to hold every service name: a text that the encoding of the
    store refuses (one with a zero byte, say) is not modelled either. *)

(** *** The types of the columns *)

(** [isxdigit]: a decimal digit or a letter a-f in either case. *)
Definition isxdigit (c : ascii) : bool :=
  is_digit c
  || ((97 <=? byte c) && (byte c <=? 102))
  || ((65 <=? byte c) && (byte c <=? 70)).

(** A hexadecimal digit as the store prints it: in lower case. *)
Definition lower_hex (c : ascii) : ascii :=
  if (65 <=? byte c) && (byte c <=? 70)
  then ascii_of_N (N_of_ascii c + 32)
  else c.

(** The loop of the store's UUID reader over the [n] bytes that are left,
    [i] being the index of the next one: two hexadecimal digits each, and
    after a byte of odd index other than the last an optional hyphen.
    The result is the digits read, lower-cased, and the text that is
    left. *)
Fixpoint uuid_bytes (n i : nat) (src : string) : option (string * string) :=
  match n with
  | O => Some (EmptyString, src)
  | S n' =>
      match src with
      | String c0 (String c1 src') =>
          if isxdigit c0 && isxdigit c1 then
            let src'' :=
              match src' with
              | String d rest =>
                  if Ascii.eqb d "-" && Nat.odd i && (i <? 15)%nat
                  then rest else src'
              | EmptyString => src'
              end in
            match uuid_bytes n' (S i) src'' with
            | Some (digits, rest) =>
                Some (String (lower_hex c0) (String (lower_hex c1) digits), rest)
            | None => None
            end
          else None
      | _ => None
      end
  end.

(** The UUID that a text denotes, as its 32 hexadecimal digits: sixteen
    bytes, optionally between braces, and nothing after them. *)
Definition uuid_in (source : string) : option string :=
  let '(braces, src) :=
    match source with
    | String c src' => if Ascii.eqb c "{" then (true, src') else (false, source)
    | EmptyString => (false, source)
    end in
  match uuid_bytes 16 0 src with
  | None => None
  | Some (digits, rest) =>
      if braces : bool then
        match rest with
        | String c EmptyString => if Ascii.eqb c "}" then Some digits else None
        | _ => None
        end
      else
        match rest with
        | EmptyString => Some digits
        | String _ _ => None
        end
  end.

(** A UUID as the store prints it: 8-4-4-4-12. *)
Definition uuid_out (digits : string) : string :=
  String.substring 0 8 digits +:+ "-" +:+ String.substring 8 4 digits +:+ "-"
  +:+ String.substring 12 4 digits +:+ "-" +:+ String.substring 16 4 digits
  +:+ "-" +:+ String.substring 20 12 digits.

(** A text parameter read into the [user_id] column: [None] when it is no
    UUID, and otherwise the UUID, which the table holds as the text that
    the store prints for it.  Two texts denote the same UUID exactly when
    they are read as the same printed form. *)
Definition pg_uuid (text : string) : option string :=
  match uuid_in text with
  | Some digits => Some (uuid_out digits)
  | None => None
  end.

(** A number read into the [price] column: INTEGER holds four bytes. *)
Definition fits_INTEGER (n : Z) : bool :=
  (-2147483648 <=? n) && (n <=? 2147483647).

(** An optional [user_id] condition, read: [None] when its text is no
    UUID. *)
Definition read_filter (user_id : option string) : option (option string) :=
  match user_id with
  | None => Some None
  | Some text =>
      match pg_uuid text with
      | Some u => Some (Some u)
      | None => None
      end
  end.

(** The columns of a line besides its key.  [end_date] is the one
    nullable column. *)
Record Row : Type := mkRow {
  price : Z;
  start_date : Time;
  end_date : option Time
}.

(** [PRIMARY KEY (user_id, service_name)]: the table is a finite map from
    that pair to the remaining columns. *)
Abbreviation Key := (string * string)%type.
Abbreviation Table := (gmap (string * string) Row).

(** The five columns that every statement on whole lines selects or
    returns, in the order [service_name, price, user_id, start_date,
    end_date]; the last is scanned into a [sql.NullTime]. *)
Record Tuple : Type := mkTuple {
  col_service_name : string;
  col_price : Z;
  col_user_id : string;
  col_start_date : Time;
  col_end_date : option Time
}.

Definition tuple (k : Key) (r : Row) : Tuple :=
  mkTuple (snd k) (price r) (fst k) (start_date r) (end_date r).

(** The statements of the handlers, indexed by what their scan yields. *)
Inductive Statement : Type -> Type :=
| Insert (service_name : string) (price : Z) (user_id : string)
         (start_date : Time) (end_date : option Time) : Statement Tuple
| Update (price : Z) (start_date : Time) (end_date : option Time)
         (user_id service_name : string) : Statement Tuple
| Select (user_id service_name : string) : Statement Tuple
| Delete (user_id service_name : string) : Statement string
| SelectAll (user_id service_name : option string) : Statement (list Tuple)
| SumPrice (startDate endDate : Time)
           (user_id service_name : option string) : Statement Z.

(** What [QueryRow(...).Scan(...)] or [Query(...)] hands back. *)
Inductive Outcome (A : Type) : Type :=
| Scanned (a : A)
| ErrNoRows
| Failed.
Arguments Scanned {A} a.
Arguments ErrNoRows {A}.
Arguments Failed {A}.

(** *** WHERE clauses *)

(** [col = $n] for each condition that the statement carries, the
    [user_id] one already read as a UUID. *)
Definition where_key (user_id service_name : option string) (k : Key) : bool :=
  match user_id with Some u => String.eqb (fst k) u | None => true end
  && match service_name with Some s => String.eqb (snd k) s | None => true end.

(** SQL's three truth values; a comparison with NULL is unknown. *)
Definition sql_ge (a : option Time) (b : Time) : option bool :=
  match a with Some t => Some (leb b t) | None => None end.

Definition sql_is_null (a : option Time) : bool :=
  match a with Some _ => false | None => true end.

Definition sql_or (p : option bool) (q : bool) : option bool :=
  match p with
  | Some true => Some true
  | Some false => Some q
  | None => if q then Some true else None
  end.

Definition sql_and (p : bool) (q : option bool) : option bool :=
  if p then q else Some false.

(** [start_date <= $2 AND (end_date >= $1 OR end_date IS NULL)]; a line
    is kept when the condition is true (not false, not unknown). *)
Definition where_period (startDate endDate : Time) (r : Row) : bool :=
  match
    sql_and (leb (start_date r) endDate)
            (sql_or (sql_ge (end_date r) startDate) (sql_is_null (end_date r)))
  with
  | Some true => true
  | _ => false
  end.

Definition lines (tbl : Table) (keep : Key -> Row -> bool) : list (Key * Row) :=
  List.filter (fun kr => keep (fst kr) (snd kr)) (map_to_list tbl).

(** [SUM] is NULL over no lines; [COALESCE(x, 0)]. *)
Definition SUM (values : list Z) : option Z :=
  match values with
  | [] => None
  | _ :: _ => Some (foldr Z.add 0 values)
  end.

Definition COALESCE (x : option Z) (d : Z) : Z :=
  match x with Some v => v | None => d end.

(** *** Running a statement *)

Definition exec {A : Type} (stmt : Statement A) (tbl : Table) : Table * Outcome A :=
  match stmt in Statement T return Table * Outcome T with
  | Insert service_name price user_id start_date end_date =>
      match pg_uuid user_id with
      | None => (tbl, Failed)              (* no UUID *)
      | Some u =>
          if negb (fits_INTEGER price) then (tbl, Failed)   (* out of range *)
          else
            let k := (u, service_name) in
            match tbl !! k with
            | Some _ => (tbl, Failed)      (* duplicate key *)
            | None =>
                let r := mkRow price start_date end_date in
                (<[k := r]> tbl, Scanned (tuple k r))
            end
      end
  | Update price start_date end_date user_id service_name =>
      match pg_uuid user_id with
      | None => (tbl, Failed)
      | Some u =>
          if negb (fits_INTEGER price) then (tbl, Failed)
          else
            let k := (u, service_name) in
            match tbl !! k with
            | Some _ =>
                let r := mkRow price start_date end_date in
                (<[k := r]> tbl, Scanned (tuple k r))
            | None => (tbl, ErrNoRows)
            end
      end
  | Select user_id service_name =>
      match pg_uuid user_id with
      | None => (tbl, Failed)
      | Some u =>
          let k := (u, service_name) in
          match tbl !! k with
          | Some r => (tbl, Scanned (tuple k r))
          | None => (tbl, ErrNoRows)
          end
      end
  | Delete user_id service_name =>
      match pg_uuid user_id with
      | None => (tbl, Failed)
      | Some u =>
          let k := (u, service_name) in
          match tbl !! k with
          | Some _ => (delete k tbl, Scanned service_name)
          | None => (tbl, ErrNoRows)
          end
      end
  | SelectAll user_id service_name =>
      match read_filter user_id with
      | None => (tbl, Failed)
      | Some user_id =>
          (tbl, Scanned (List.map (fun kr => tuple (fst kr) (snd kr))
                           (lines tbl (fun k _ => where_key user_id service_name k))))
      end
  | SumPrice startDate endDate user_id service_name =>
      match read_filter user_id with
      | None => (tbl, Failed)
      | Some user_id =>
          (tbl, Scanned (COALESCE
             (SUM (List.map (fun kr => price (snd kr))
                     (lines tbl (fun k r => where_period startDate endDate r
                                            && where_key user_id service_name k))))
             0))
      end
  end.

End db.
Import db.

(* ===================================================================== *)
(** ** Package [handlers] *)
(* ===================================================================== *)

Module handlers.

(** *** Date helpers *)

Definition parseMonthYear (dateStr : string) : result ParseError Time :=
  if String.eqb dateStr "" then Ok time.zero
  else Parse_01_2006 dateStr.

Definition formatMonthYear (t : Time) : string := Format_01_2006 t.

Definition toFirstDayOfMonth (t : Time) : Time :=
  Date (Year t) (Month t) 1.

(** *** Requests and responses *)

(** What a handler reads from its [*gin.Context]: the two path
    parameters of the route, the query string, and the body as decoded
    into a [SubscriptionRequest] ([None] when it does not decode). *)
Record Context : Type := mkContext {
  Param_user_id : string;
  Param_service_name : string;
  QueryValues : list (string * string);
  Body : option SubscriptionRequest
}.

(** [c.Query(key)]: the first value of the key, [""] without one. *)
Fixpoint lookup_query (key : string) (values : list (string * string)) : string :=
  match values with
  | [] => ""
  | (k, v) :: values' => if String.eqb k key then v else lookup_query key values'
  end.

Definition Query (c : Context) (key : string) : string :=
  lookup_query key (QueryValues c).

Inductive BindError : Type :=
| DecodeError
| ValidationErrors (errs : list FieldError).

Definition validated {A : Type} (validate : A -> list FieldError) (a : A)
  : result BindError A :=
  match validate a with
  | [] => Ok a
  | errs => Err (ValidationErrors errs)
  end.

Definition ShouldBindUri (c : Context) : result BindError CompositeKey :=
  validated validate_CompositeKey
    (mkCompositeKey (Param_user_id c) (Param_service_name c)).

Definition ShouldBindJSON (c : Context) : result BindError SubscriptionRequest :=
  match Body c with
  | None => Err DecodeError
  | Some req => validated validate_SubscriptionRequest req
  end.

(** [FilterParams] has [form] tags only: binding copies the four values
    and validates nothing. *)
Definition ShouldBindQuery (c : Context) : result BindError FilterParams :=
  Ok (mkFilterParams (Query c "user_id") (Query c "service_name")
                     (Query c "start_date") (Query c "end_date")).

Definition StatusOK : Z := 200.
Definition StatusCreated : Z := 201.
Definition StatusBadRequest : Z := 400.
Definition StatusNotFound : Z := 404.
Definition StatusInternalServerError : Z := 500.

(** The text under ["error"]: [err.Error()] of a binding error, or a
    literal. *)
Inductive ErrorText : Type :=
| BindingText (e : BindError)
| Literal (s : string).

Inductive Payload : Type :=
| H_error (e : ErrorText)
| H_deleted (message service_name user_id : string)
| OneSubscription (sub : Subscription)
| Subscriptions (subs : list Subscription)
| Total (r : TotalCostResponse).

Record Response : Type := JSON { status : Z; payload : Payload }.

(** A handler validates, then either answers at once or runs one
    statement and answers from its outcome. *)
Inductive Handler : Type :=
| Reply (r : Response)
| Run {A : Type} (stmt : Statement A) (answer : Outcome A -> Response).

(** A request served against the table. *)
Definition serve (h : Handler) (tbl : Table) : Table * Response :=
  match h with
  | Reply r => (tbl, r)
  | Run stmt answer => let '(tbl', o) := exec stmt tbl in (tbl', answer o)
  end.

Definition internal_error : Response :=
  JSON StatusInternalServerError (H_error (Literal "internal server error")).

Definition not_found : Response :=
  JSON StatusNotFound (H_error (Literal "subscription not found")).

(** The [Subscription] built from a scanned line. *)
Definition shape (t : Tuple) : Subscription :=
  mkSubscription (col_service_name t) (col_price t) (col_user_id t)
    (formatMonthYear (col_start_date t))
    (match col_end_date t with
     | Some e => formatMonthYear e
     | None => ""
     end).

(** The dates of a [SubscriptionRequest], parsed as Create and Update
    do: the start date always, the end date only when it is not empty. *)
Inductive DateError : Type := BadStartDate | BadEndDate.

Definition request_dates (req : SubscriptionRequest)
  : result DateError (Time * option Time) :=
  match parseMonthYear (req_StartDate req) with
  | Err _ => Err BadStartDate
  | Ok startDate =>
      let startDate := toFirstDayOfMonth startDate in
      if negb (String.eqb (req_EndDate req) "") then
        match parseMonthYear (req_EndDate req) with
        | Err _ => Err BadEndDate
        | Ok endDate => Ok (startDate, Some (toFirstDayOfMonth endDate))
        end
      else Ok (startDate, None)
  end.

Definition date_error (e : DateError) : Response :=
  JSON StatusBadRequest (H_error (Literal
    match e with
    | BadStartDate => "invalid start_date format, expected MM-YYYY"
    | BadEndDate => "invalid end_date format, expected MM-YYYY"
    end)).

Definition bind_error (e : BindError) : Response :=
  JSON StatusBadRequest (H_error (BindingText e)).

(** *** The handlers *)

Definition CreateSubscription (c : Context) : Handler :=
  match ShouldBindUri c with
  | Err e => Reply (bind_error e)
  | Ok key =>
      match ShouldBindJSON c with
      | Err e => Reply (bind_error e)
      | Ok req =>
          match request_dates req with
          | Err e => Reply (date_error e)
          | Ok (startDate, endDatePtr) =>
              Run (Insert (req_ServiceName req) (req_Price req)
                          (key_UserID key) startDate endDatePtr)
                  (fun o =>
                     match o with
                     | Scanned t => JSON StatusCreated (OneSubscription (shape t))
                     | _ => internal_error
                     end)
          end
      end
  end.

Definition UpdateSubscription (c : Context) : Handler :=
  match ShouldBindUri c with
  | Err e => Reply (bind_error e)
  | Ok key =>
      match ShouldBindJSON c with
      | Err e => Reply (bind_error e)
      | Ok req =>
          match request_dates req with
          | Err e => Reply (date_error e)
          | Ok (startDate, endDatePtr) =>
              Run (Update (req_Price req) startDate endDatePtr
                          (key_UserID key) (req_ServiceName req))
                  (fun o =>
                     match o with
                     | Scanned t => JSON StatusOK (OneSubscription (shape t))
                     | ErrNoRows => not_found
                     | Failed => internal_error
                     end)
          end
      end
  end.

Definition GetSubscription (c : Context) : Handler :=
  match ShouldBindUri c with
  | Err e => Reply (bind_error e)
  | Ok key =>
      Run (Select (key_UserID key) (key_ServiceName key))
          (fun o =>
             match o with
             | Scanned t => JSON StatusOK (OneSubscription (shape t))
             | ErrNoRows => not_found
             | Failed => internal_error
             end)
  end.

Definition DeleteSubscription (c : Context) : Handler :=
  match ShouldBindUri c with
  | Err e => Reply (bind_error e)
  | Ok key =>
      Run (Delete (key_UserID key) (key_ServiceName key))
          (fun o =>
             match o with
             | Scanned serviceName =>
                 JSON StatusOK
                   (H_deleted "subscription deleted" serviceName (key_UserID key))
             | ErrNoRows => not_found
             | Failed => internal_error
             end)
  end.

Definition ListSubscriptions (c : Context) : Handler :=
  let userID := Query c "user_id" in
  let serviceName := Query c "service_name" in
  let stmt :=
    if negb (String.eqb userID "") && negb (String.eqb serviceName "")
    then SelectAll (Some userID) (Some serviceName)
    else if negb (String.eqb userID "") then SelectAll (Some userID) None
    else if negb (String.eqb serviceName "") then SelectAll None (Some serviceName)
    else SelectAll None None in
  Run stmt
      (fun o =>
         match o with
         | Scanned rows => JSON StatusOK (Subscriptions (List.map shape rows))
         | _ => internal_error
         end).

Definition GetTotalCost (c : Context) : Handler :=
  match ShouldBindQuery c with
  | Err e => Reply (bind_error e)
  | Ok params =>
      match parseMonthYear (flt_StartDate params) with
      | Err _ => Reply (date_error BadStartDate)
      | Ok startDate =>
          let startDate := toFirstDayOfMonth startDate in
          match parseMonthYear (flt_EndDate params) with
          | Err _ => Reply (date_error BadEndDate)
          | Ok endDate =>
              let endDate := toFirstDayOfMonth endDate in
              let '(user_id, service_name) :=
                if negb (String.eqb (flt_UserID params) "") then
                  (Some (flt_UserID params),
                   if negb (String.eqb (flt_ServiceName params) "")
                   then Some (flt_ServiceName params) else None)
                else if negb (String.eqb (flt_ServiceName params) "") then
                  (None, Some (flt_ServiceName params))
                else (None, None) in
              Run (SumPrice startDate endDate user_id service_name)
                  (fun o =>
                     match o with
                     | Scanned totalCost =>
                         JSON StatusOK (Total (mkTotalCostResponse totalCost))
                     | _ => internal_error
                     end)
          end
      end
  end.

End handlers.
Import handlers.

(* ===================================================================== *)
(** ** The MM-YYYY pattern, as the specification words it *)
(* ===================================================================== *)

(** Two digits for a month between 01 and 12, a hyphen, four digits for the
    year, and nothing else. *)
Definition month_year_pattern (s : string) : bool :=
  match s with
  | String m1 (String m2 (String sep (String y1 (String y2 (String y3
      (String y4 EmptyString)))))) =>
      is_digit m1 && is_digit m2 && Ascii.eqb sep "-"
      && is_digit y1 && is_digit y2 && is_digit y3 && is_digit y4
      && (1 <=? digit_val m1 * 10 + digit_val m2)
      && (digit_val m1 * 10 + digit_val m2 <=? 12)
  | _ => false
  end.

(** The month and the year that a string of the pattern denotes, read off
    its positions, and the first instant of that month. *)
Definition pattern_month (s : string) : Z :=
  10 * digit_at s 0 + digit_at s 1.

Definition pattern_year (s : string) : Z :=
  1000 * digit_at s 3 + 100 * digit_at s 4 + 10 * digit_at s 5 + digit_at s 6.

Definition first_of_month (s : string) : Time :=
  mkTime (pattern_year s) (pattern_month s) 1 0.

(** *** The total cost, as the specification words it *)


(** The sum of [price] over the lines of the table that [keep] selects. *)
Definition sum_of_prices (keep : Key -> Row -> bool) (tbl : Table) : Z :=
  map_fold (fun k r acc => if keep k r then price r + acc else acc) 0 tbl.

(** *** What the validation phase of Create and Update lets through *)

(** A service name, a strictly positive price, a start date of the pattern,
    and an end date that is either empty or of the pattern. *)
Definition valid_request (req : SubscriptionRequest) : Prop :=
  req_ServiceName req <> ""
  /\ 0 < req_Price req
  /\ month_year_pattern (req_StartDate req) = true
  /\ (req_EndDate req = "" \/ month_year_pattern (req_EndDate req) = true).

Definition valid_key (c : Context) : Prop :=
  is_uuid (Param_user_id c) = true /\ Param_service_name c <> "".

(** The end date that a valid request asks to store. *)
Definition requested_end (req : SubscriptionRequest) : option Time :=
  if String.eqb (req_EndDate req) "" then None
  else Some (first_of_month (req_EndDate req)).

(** The line that a valid request asks to store. *)
Definition requested_row (req : SubscriptionRequest) : Row :=
  mkRow (req_Price req) (first_of_month (req_StartDate req)) (requested_end req).


(** Whether a handler reaches the store, and the [user_id] that its
    statement carries there. *)
Definition reaches_store (h : Handler) : bool :=
  match h with
  | Reply _ => false
  | Run _ _ => true
  end.

Definition user_id_of {A : Type} (stmt : Statement A) : option string :=
  match stmt with
  | Insert _ _ user_id _ _ => Some user_id
  | Update _ _ _ user_id _ => Some user_id
  | Select user_id _ => Some user_id
  | Delete user_id _ => Some user_id
  | SelectAll user_id _ => user_id
  | SumPrice _ _ user_id _ => user_id
  end.

Definition user_id_sent (h : Handler) : option string :=
  match h with
  | Reply _ => None
  | Run stmt _ => user_id_of stmt
  end.

(** The answer of a handler that answers without the store. *)
Definition rejected (h : Handler) : option Response :=
  match h with
  | Reply r => Some r
  | Run _ _ => None
  end.

(** *** Instants that print in four year digits *)

(** A month between January and December of a year between 0 and 9999. *)
Definition four_digit_year (t : Time) : Prop :=
  1 <= Month t <= 12 /\ 0 <= Year t <= 9999.

(** *** Lines as the handlers write them *)

(** The first instant of a month that some string of the pattern denotes. *)
Definition month_start (t : Time) : Prop :=
  exists s, month_year_pattern s = true /\ t = first_of_month s.

(** A line keyed by a UUID and a service name, with a positive price and
    its dates at the start of a month. *)
Definition line_ok (k : Key) (r : Row) : Prop :=
  is_uuid (fst k) = true
  /\ snd k <> ""
  /\ 0 < price r
  /\ month_start (start_date r)
  /\ (forall e, end_date r = Some e -> month_start e).

Definition written_by_handlers (tbl : Table) : Prop :=
  forall k r, tbl !! k = Some r -> line_ok k r.

(** A date of a response: of the pattern, or absent where it may be. *)
Definition shown_dates (sub : Subscription) : Prop :=
  month_year_pattern (sub_StartDate sub) = true
  /\ (sub_EndDate sub = "" \/ month_year_pattern (sub_EndDate sub) = true).

(** The lines that a list request asks for: an empty filter is no filter. *)
Definition listed (user_id service_name : string) (k : Key) : bool :=
  (String.eqb user_id "" || String.eqb (fst k) user_id)
  && (String.eqb service_name "" || String.eqb (snd k) service_name).

(** The six handlers, by name. *)
Inductive Endpoint : Type :=
| Create | Update | Get | Delete | List | TotalCost.

Definition handler (e : Endpoint) : Context -> Handler :=
  match e with
  | Create => CreateSubscription
  | Update => UpdateSubscription
  | Get => GetSubscription
  | Delete => DeleteSubscription
  | List => ListSubscriptions
  | TotalCost => GetTotalCost
  end.


(** *** Seeding ([db/db.go])

    [RunSeeds] counts the lines of the table and, only when the count
    succeeds and is zero, reads the seed file and hands its text to the
    store.  The file is not part of the sources: what reading it gives
    ([None] when it cannot be read) and what the store does with a script
    (the table it leaves, and whether it reported an error) are taken as
    given, and so is the outcome of the count, which a store that cannot
    be reached fails. *)

Inductive SeedsError : Type :=
| SeedsCountFailed   (* could not check data count *)
| SeedsUnreadable    (* could not read seeds file *)
| SeedsFailed.       (* seeds failed *)

Definition RunSeeds (Count : Table -> Outcome Z) (seeds_file : option string)
  (Exec : string -> Table -> Table * bool) (tbl : Table)
  : Table * option SeedsError :=
  match Count tbl with
  | Scanned count =>
      if count =? 0 then
        match seeds_file with
        | None => (tbl, Some SeedsUnreadable)
        | Some sqlBytes =>
            let '(tbl', failed) := Exec sqlBytes tbl in
            if failed : bool then (tbl', Some SeedsFailed) else (tbl', None)
        end
      else (tbl, None)
  | _ => (tbl, Some SeedsCountFailed)
  end.

(** The store answering the count: the number of lines. *)
Definition count_lines (tbl : Table) : Outcome Z :=
  Scanned (Z.of_nat (size tbl)).

(** *** Filters and prices that the store can read *)

(** The UUID that the text of a [user_id] filter denotes, as the store
    prints it; the empty text is no filter and is kept as it is; [None]
    when the text is neither empty nor a UUID. *)
Definition read_user_filter (text : string) : option string :=
  if String.eqb text "" then Some "" else pg_uuid text.

(** *** Sample data *)

Definition netflix_user : string := "11111111-1111-1111-1111-111111111111".

(** One open-ended subscription, started in January 2024. *)
Definition sample_table : Table :=
  {[ (netflix_user, "Netflix") := mkRow 500 (first_of_month "01-2024") None ]}.

Definition sample_request : SubscriptionRequest :=
  mkSubscriptionRequest "Netflix" 700 "03-2024" "12-2024".


(** A total-cost request for one period, without filters. *)
Definition period_request (start_date end_date : string) : Context :=
  mkContext "" "" [("start_date", start_date); ("end_date", end_date)] None.

(** A list request, or a total-cost request for June 2024, filtered by a
    user id. *)
Definition filtered_request (user_id : string) : Context :=
  mkContext "" ""
    [("user_id", user_id); ("start_date", "06-2024"); ("end_date", "06-2024")]
    None.



(** A request that passes validation with a price beyond INTEGER, sent to
    the path of a service that is not stored. *)
Definition big_price_request : SubscriptionRequest :=
  mkSubscriptionRequest "Spotify" 3000000000 "03-2024" "".

Definition update_big_price : Context :=
  mkContext netflix_user "Spotify" [] (Some big_price_request).


(** *** Proof support: the ten digit values, and the check that four of
    them print as themselves *)

Definition digits10 : list Z := [0; 1; 2; 3; 4; 5; 6; 7; 8; 9].

Definition four_digits_check (a b c d : Z) : bool :=
  String.eqb (appendInt (1000 * a + 100 * b + 10 * c + d) 4)
    (String (digit_char a) (String (digit_char b)
       (String (digit_char c) (String (digit_char d) "")))).

Ltac split_andb :=
  repeat match goal with
         | H : _ && _ = true |- _ => apply andb_prop in H; destruct H
         end.

Ltac case_if_in H :=
  match type of H with
  | context [if ?b then _ else _] =>
      match b with
      | context [if _ then _ else _] => fail 1
      | _ => destruct b eqn:?
      end
  end.

(* ===================================================================== *)
(** ** Digits *)
(* ===================================================================== *)

Section Digits.

Lemma is_digit_inv (c : ascii) :
  is_digit c = true ->
  0 <= digit_val c <= 9
  /\ digit_char (digit_val c) = c
  /\ Ascii.eqb c "-" = false
  /\ Ascii.eqb c "+" = false.
Proof.
  destruct c as [b0 b1 b2 b3 b4 b5 b6 b7].
  destruct b0, b1, b2, b3, b4, b5, b6, b7;
    vm_compute; intros H; try discriminate H;
    (split; [split; discriminate | split; [reflexivity | split; reflexivity]]).
Qed.
Lemma forall_digits (f : Z -> bool) :
  forallb f digits10 = true -> forall d, 0 <= d <= 9 -> f d = true.
Proof.
  intros Hall d Hd.
  rewrite forallb_forall in Hall. apply Hall. unfold digits10.
  assert (d = 0 \/ d = 1 \/ d = 2 \/ d = 3 \/ d = 4 \/ d = 5 \/ d = 6
          \/ d = 7 \/ d = 8 \/ d = 9) as Hcases by lia.
  simpl. intuition auto.
Qed.
Lemma appendInt_2 (a b : Z) :
  0 <= a <= 9 -> 0 <= b <= 9 ->
  appendInt (10 * a + b) 2 = String (digit_char a) (String (digit_char b) "").
Proof.
  intros Ha Hb. apply String.eqb_eq. revert b Hb.
  apply forall_digits. revert a Ha.
  apply (forall_digits (fun a => forallb (fun b =>
    String.eqb (appendInt (10 * a + b) 2)
      (String (digit_char a) (String (digit_char b) ""))) digits10)).
  vm_compute. reflexivity.
Qed.
Lemma appendInt_4 (a b c d : Z) :
  0 <= a <= 9 -> 0 <= b <= 9 -> 0 <= c <= 9 -> 0 <= d <= 9 ->
  appendInt (1000 * a + 100 * b + 10 * c + d) 4
  = String (digit_char a) (String (digit_char b)
      (String (digit_char c) (String (digit_char d) ""))).
Proof.
  intros Ha Hb Hc Hd. apply String.eqb_eq.
  change (four_digits_check a b c d = true).
  revert d Hd.
  apply (forall_digits (four_digits_check a b c)). revert c Hc.
  apply (forall_digits (fun c => forallb (four_digits_check a b c) digits10)).
  revert b Hb.
  apply (forall_digits (fun b => forallb (fun c =>
           forallb (four_digits_check a b c) digits10) digits10)).
  revert a Ha.
  apply (forall_digits (fun a => forallb (fun b => forallb (fun c =>
           forallb (four_digits_check a b c) digits10) digits10) digits10)).
  vm_compute. reflexivity.
Qed.
Lemma leadingInt_digit (c : ascii) (s : string) (x : Z) :
  is_digit c = true -> 0 <= x <= 100000 ->
  leadingInt (String c s) x = leadingInt s (x * 10 + digit_val c).
Proof.
  intros Hc Hx. destruct (is_digit_inv c Hc) as (Hd & _).
  cbn [leadingInt]. rewrite Hc. cbn [negb].
  assert (2 ^ 63 / 10 = 922337203685477580) as -> by reflexivity.
  assert (2 ^ 63 = 9223372036854775808) as -> by reflexivity.
  destruct (Z.ltb_spec 922337203685477580 x); [lia |].
  destruct (Z.ltb_spec 9223372036854775808 (x * 10 + digit_val c)); [lia |].
  reflexivity.
Qed.

Lemma leadingInt_stop (c : ascii) (s : string) (x : Z) :
  is_digit c = false -> leadingInt (String c s) x = Ok (x, String c s).
Proof. intros Hc. cbn [leadingInt]. rewrite Hc. reflexivity. Qed.

Lemma atoi_four (y1 y2 y3 y4 : ascii) :
  is_digit y1 = true ->
  atoi (String y1 (String y2 (String y3 (String y4 ""))))
  = if is_digit y2 && is_digit y3 && is_digit y4
    then Ok (1000 * digit_val y1 + 100 * digit_val y2
             + 10 * digit_val y3 + digit_val y4)
    else Err errAtoi.
Proof.
  intros H1. destruct (is_digit_inv y1 H1) as (B1 & _ & Hm & Hp).
  unfold atoi. rewrite Hm, Hp.
  rewrite leadingInt_digit by (auto; lia).
  destruct (is_digit y2) eqn:H2; cbn [andb];
    [| rewrite leadingInt_stop by assumption; reflexivity].
  destruct (is_digit_inv y2 H2) as (B2 & _).
  rewrite leadingInt_digit by (auto; lia).
  destruct (is_digit y3) eqn:H3; cbn [andb];
    [| rewrite leadingInt_stop by assumption; reflexivity].
  destruct (is_digit_inv y3 H3) as (B3 & _).
  rewrite leadingInt_digit by (auto; lia).
  destruct (is_digit y4) eqn:H4; cbn [andb];
    [| rewrite leadingInt_stop by assumption; reflexivity].
  destruct (is_digit_inv y4 H4) as (B4 & _).
  rewrite leadingInt_digit by (auto; lia).
  cbn [leadingInt]. f_equal. lia.
Qed.


(** [time.Parse] accepts every string of the pattern, as the first
    instant of the month it denotes. *)
Lemma Parse_pattern (s : string) :
  month_year_pattern s = true -> Parse_01_2006 s = Ok (first_of_month s).
Proof.
  destruct s as [|m1 [|m2 [|sep [|y1 [|y2 [|y3 [|y4 [|c s]]]]]]]];
    try discriminate.
  cbn [month_year_pattern]. intros Hp. split_andb.
  match goal with
  | H : Ascii.eqb _ _ = true |- _ => apply Ascii.eqb_eq in H; subst sep
  end.
  apply Z.leb_le in H1, H0.
  unfold Parse_01_2006, getnum, isDigit.
  cbn [String.get Nat.eqb]. rewrite H, H7. cbn [negb drop].
  unfold digit_at; cbn [String.get].
  destruct (Z.leb_spec (digit_val m1 * 10 + digit_val m2) 0); [lia |].
  destruct (Z.ltb_spec 12 (digit_val m1 * 10 + digit_val m2)); [lia |].
  cbn [orb skip Ascii.eqb Bool.eqb String.length Nat.ltb Nat.leb String.get
       String.substring drop].
  rewrite H5. cbn [negb].
  rewrite atoi_four by assumption. rewrite H4, H3, H2. cbn [andb].
  unfold first_of_month, pattern_year, pattern_month, digit_at, Date.
  cbn [String.get Nat.eqb]. f_equal. f_equal. lia.
Qed.

Lemma Parse_only_pattern (s : string) (t : Time) :
  Parse_01_2006 s = Ok t -> month_year_pattern s = true.
Proof.
  intros H. unfold Parse_01_2006, getnum, isDigit in H.
  destruct s as [|m1 [|m2 [|sep [|y1 [|y2 [|y3 [|y4 [|c s]]]]]]]];
    cbn [String.get Nat.eqb drop negb] in H; try discriminate H;
    repeat (case_if_in H; cbn [negb orb] in H; try discriminate H);
    cbn [skip] in H; try discriminate H;
    repeat (case_if_in H; cbn [negb orb skip String.length Nat.ltb Nat.leb String.get] in H; try discriminate H).
  all: cbn [String.substring drop] in H.
  all: apply negb_false_iff in Heqb, Heqb0, Heqb3.
  all: rewrite atoi_four in H by assumption.
  2: { destruct (is_digit y2 && is_digit y3 && is_digit y4); discriminate H. }
  destruct (is_digit y2 && is_digit y3 && is_digit y4) eqn:Hy;
    [| discriminate H].
  apply orb_false_elim in Heqb1. destruct Heqb1 as [Hlo Hhi].
  unfold digit_at in Hlo, Hhi. cbn [String.get Nat.eqb] in Hlo, Hhi.
  apply Z.leb_gt in Hlo. apply Z.ltb_ge in Hhi.
  cbn [month_year_pattern]. rewrite Heqb, Heqb0, Heqb2, Heqb3. cbn [andb].
  apply andb_prop in Hy. destruct Hy as [Hy Hy4].
  apply andb_prop in Hy. destruct Hy as [Hy2 Hy3].
  rewrite Hy2, Hy3, Hy4. cbn [andb].
  apply andb_true_intro. split; apply Z.leb_le; lia.
Qed.

(** Formatting the first instant of the month that a string of the
    pattern denotes gives the string back. *)
Lemma Format_pattern (s : string) :
  month_year_pattern s = true -> Format_01_2006 (first_of_month s) = s.
Proof.
  destruct s as [|m1 [|m2 [|sep [|y1 [|y2 [|y3 [|y4 [|c s]]]]]]]];
    try discriminate.
  cbn [month_year_pattern]. intros Hp. split_andb.
  match goal with
  | H : Ascii.eqb _ _ = true |- _ => apply Ascii.eqb_eq in H; subst sep
  end.
  repeat match goal with
         | H : is_digit ?c = true |- _ =>
             let B := fresh "B" in
             let E := fresh "E" in
             destruct (is_digit_inv c H) as (B & E & _); clear H
         end.
  unfold Format_01_2006, first_of_month, pattern_year, pattern_month, digit_at.
  cbn [String.get Nat.eqb Year Month].
  rewrite appendInt_2, appendInt_4 by assumption.
  repeat match goal with E : digit_char _ = _ |- _ => rewrite E; clear E end.
  reflexivity.
Qed.

End Digits.

(* ===================================================================== *)
(** ** UUIDs *)
(* ===================================================================== *)

Section Uuids.

Lemma is_hex_inv (c : ascii) :
  is_hex c = true ->
  isxdigit c = true
  /\ lower_hex c = c
  /\ Ascii.eqb c "-" = false
  /\ Ascii.eqb c "{" = false.
Proof.
  destruct c as [b0 b1 b2 b3 b4 b5 b6 b7].
  destruct b0, b1, b2, b3, b4, b5, b6, b7;
    vm_compute; intros H; try discriminate H; repeat split.
Qed.

Ltac next_hex s H :=
  let c := fresh "c" in
  let Hc := fresh "Hc" in
  destruct s as [| c s]; [discriminate H |];
  cbn [hex_run hex_groups] in H;
  destruct (is_hex c) eqn:Hc; [| discriminate H];
  destruct (is_hex_inv c Hc) as (? & ? & ? & ?).

Ltac next_dash s H :=
  let c := fresh "d" in
  let Hc := fresh "Hd" in
  destruct s as [| c s]; [discriminate H |];
  cbn [dash hex_run hex_groups] in H;
  destruct (Ascii.eqb c "-") eqn:Hc; [| discriminate H];
  apply Ascii.eqb_eq in Hc; subst c.

(** The store reads a UUID in the form that the binding rule accepts as
    itself. *)
Lemma pg_uuid_canonical (s : string) :
  is_uuid s = true -> pg_uuid s = Some s.
Proof.
  unfold is_uuid. intros H. cbn [hex_groups] in H.
  do 8 next_hex s H. next_dash s H.
  do 4 next_hex s H. next_dash s H.
  do 4 next_hex s H. next_dash s H.
  do 4 next_hex s H. next_dash s H.
  do 12 next_hex s H.
  destruct s; [| discriminate H]. clear H.
  unfold pg_uuid, uuid_in.
  repeat match goal with
         | E : Ascii.eqb ?c "{" = false |- context [Ascii.eqb ?c "{"] =>
             rewrite E
         end.
  repeat first
    [ progress cbn [uuid_bytes andb Nat.odd Nat.even Nat.ltb Nat.leb negb
                    Ascii.eqb Bool.eqb]
    | match goal with
      | E : isxdigit ?c = true |- context [isxdigit ?c] => rewrite E
      | E : Ascii.eqb ?c "-" = false |- context [Ascii.eqb ?c "-"] => rewrite E
      | E : lower_hex ?c = ?c |- context [lower_hex ?c] => rewrite E
      end ].
  reflexivity.
Qed.

End Uuids.

(* ===================================================================== *)
(** ** Dates and bindings of a request *)
(* ===================================================================== *)

Section Requests.

Lemma pattern_not_empty (s : string) :
  month_year_pattern s = true -> String.eqb s "" = false.
Proof. destruct s; [discriminate | reflexivity]. Qed.


(** A string of the pattern parses to the month it denotes. *)
Lemma parseMonthYear_pattern (s : string) :
  month_year_pattern s = true -> parseMonthYear s = Ok (first_of_month s).
Proof.
  intros Hp. unfold parseMonthYear.
  rewrite pattern_not_empty by assumption. apply Parse_pattern, Hp.
Qed.

(** The helper accepts the empty string and the pattern, nothing else. *)
Lemma parseMonthYear_inv (s : string) (t : Time) :
  parseMonthYear s = Ok t ->
  (s = "" /\ t = time.zero)
  \/ (month_year_pattern s = true /\ t = first_of_month s).
Proof.
  unfold parseMonthYear. destruct (String.eqb s "") eqn:He.
  - apply String.eqb_eq in He. intros [= <-]. left. split; trivial.
  - intros Hparse. right.
    pose proof (Parse_only_pattern s t Hparse) as Hp.
    rewrite (Parse_pattern s Hp) in Hparse. injection Hparse as <-.
    split; trivial.
Qed.

Lemma parseMonthYear_rejects (s : string) :
  s <> "" -> month_year_pattern s = false -> exists e, parseMonthYear s = Err e.
Proof.
  intros Hne Hp. destruct (parseMonthYear s) as [t | e] eqn:Hparse; [| eauto].
  destruct (parseMonthYear_inv s t Hparse) as [[? _] | [? _]]; congruence.
Qed.

Lemma ShouldBindUri_valid (c : Context) :
  valid_key c ->
  ShouldBindUri c = Ok (mkCompositeKey (Param_user_id c) (Param_service_name c)).
Proof.
  intros [Hu Hs]. unfold ShouldBindUri, validated, validate_CompositeKey,
    required_string. cbn [key_UserID key_ServiceName]. rewrite Hu.
  destruct (String.eqb (Param_user_id c) "") eqn:He.
  { apply String.eqb_eq in He. rewrite He in Hu. discriminate Hu. }
  apply String.eqb_neq in Hs. rewrite Hs. reflexivity.
Qed.

Lemma ShouldBindUri_inv (c : Context) (key : CompositeKey) :
  ShouldBindUri c = Ok key ->
  valid_key c /\ key = mkCompositeKey (Param_user_id c) (Param_service_name c).
Proof.
  unfold ShouldBindUri, validated, validate_CompositeKey, required_string,
    valid_key. cbn [key_UserID key_ServiceName].
  destruct (String.eqb (Param_user_id c) "");
    [discriminate |].
  destruct (is_uuid (Param_user_id c)); [| discriminate].
  destruct (String.eqb (Param_service_name c) "") eqn:Hs; [discriminate |].
  apply String.eqb_neq in Hs. cbn. intros [= <-]. auto.
Qed.

Lemma ShouldBindUri_rejects (c : Context) :
  is_uuid (Param_user_id c) = false -> exists e, ShouldBindUri c = Err e.
Proof.
  intros Hu. destruct (ShouldBindUri c) as [key | e] eqn:Hb; [| eauto].
  apply ShouldBindUri_inv in Hb. destruct Hb as [[Hv _] _]. congruence.
Qed.

Lemma ShouldBindJSON_inv (c : Context) (req : SubscriptionRequest) :
  ShouldBindJSON c = Ok req ->
  Body c = Some req
  /\ req_ServiceName req <> "" /\ 0 < req_Price req /\ req_StartDate req <> "".
Proof.
  unfold ShouldBindJSON, validated, validate_SubscriptionRequest,
    required_string.
  destruct (Body c) as [req' |]; [| discriminate].
  destruct (String.eqb (req_ServiceName req') "") eqn:Hs; [discriminate |].
  destruct (Z.eqb_spec (req_Price req') 0); [discriminate |].
  destruct (Z.ltb_spec (req_Price req') 0); [discriminate |].
  destruct (String.eqb (req_StartDate req') "") eqn:Hd; [discriminate |].
  apply String.eqb_neq in Hs, Hd. cbn. intros [= <-].
  repeat split; trivial; lia.
Qed.

Lemma ShouldBindJSON_valid (c : Context) (req : SubscriptionRequest) :
  Body c = Some req -> valid_request req -> ShouldBindJSON c = Ok req.
Proof.
  intros Hb (Hs & Hp & Hd & _).
  unfold ShouldBindJSON, validated, validate_SubscriptionRequest,
    required_string. rewrite Hb.
  apply String.eqb_neq in Hs. rewrite Hs.
  rewrite (pattern_not_empty _ Hd).
  destruct (Z.eqb_spec (req_Price req) 0); [lia |].
  destruct (Z.ltb_spec (req_Price req) 0); [lia |].
  reflexivity.
Qed.

(** The dates that Create and Update store for a valid request. *)
Lemma request_dates_valid (req : SubscriptionRequest) :
  valid_request req ->
  request_dates req
  = Ok (first_of_month (req_StartDate req), requested_end req).
Proof.
  intros (_ & _ & Hd & He). unfold request_dates, requested_end.
  rewrite (parseMonthYear_pattern _ Hd).
  destruct He as [He | He].
  - rewrite He. reflexivity.
  - rewrite (pattern_not_empty _ He). cbn [negb].
    rewrite (parseMonthYear_pattern _ He). reflexivity.
Qed.

(** Conversely, a request that passes binding and date parsing is valid. *)
Lemma request_dates_inv (c : Context) (req : SubscriptionRequest)
  (startDate : Time) (endDatePtr : option Time) :
  ShouldBindJSON c = Ok req ->
  request_dates req = Ok (startDate, endDatePtr) ->
  valid_request req.
Proof.
  intros Hb Hd. apply ShouldBindJSON_inv in Hb.
  destruct Hb as (_ & Hs & Hp & Hne).
  unfold request_dates in Hd.
  destruct (parseMonthYear (req_StartDate req)) as [t |] eqn:Hst;
    [| discriminate].
  apply parseMonthYear_inv in Hst. destruct Hst as [[? _] | [Hst _]];
    [contradiction |].
  repeat split; trivial.
  destruct (String.eqb (req_EndDate req) "") eqn:He.
  - left. apply String.eqb_eq, He.
  - right. cbn [negb] in Hd.
    destruct (parseMonthYear (req_EndDate req)) as [t' |] eqn:Hen;
      [| discriminate].
    apply parseMonthYear_inv in Hen. destruct Hen as [[Hen _] | [Hen _]];
      trivial.
    apply String.eqb_neq in He. contradiction.
Qed.


End Requests.

(* ===================================================================== *)
(** ** The validation phase of Create and Update *)
(* ===================================================================== *)

Section Validation.

Variable c : Context.

(** How the validation phase of Create ends: with a binding error, with a
    date error, or with a valid key and a valid body. *)
Lemma CreateSubscription_validation :
  (exists e, CreateSubscription c = Reply (bind_error e))
  \/ (exists req e, Body c = Some req /\ request_dates req = Err e
                    /\ CreateSubscription c = Reply (date_error e))
  \/ (valid_key c /\ exists req, Body c = Some req /\ valid_request req).
Proof.
  unfold CreateSubscription.
  destruct (ShouldBindUri c) as [key | e] eqn:Hu; [| left; eexists; reflexivity].
  destruct (ShouldBindJSON c) as [req | e] eqn:Hj; [| left; eexists; reflexivity].
  right.
  destruct (request_dates req) as [[startDate endDatePtr] | e] eqn:Hd.
  - right. split; [apply (ShouldBindUri_inv c key Hu) |].
    exists req. split; [apply (ShouldBindJSON_inv c req Hj) |].
    apply (request_dates_inv c req startDate endDatePtr Hj Hd).
  - left. exists req, e. split; [apply (ShouldBindJSON_inv c req Hj) | auto].
Qed.

(** Update validates as Create does. *)
Lemma UpdateSubscription_validation :
  (exists e, UpdateSubscription c = Reply (bind_error e))
  \/ (exists req e, Body c = Some req /\ request_dates req = Err e
                    /\ UpdateSubscription c = Reply (date_error e))
  \/ (valid_key c /\ exists req, Body c = Some req /\ valid_request req).
Proof.
  unfold UpdateSubscription.
  destruct (ShouldBindUri c) as [key | e] eqn:Hu; [| left; eexists; reflexivity].
  destruct (ShouldBindJSON c) as [req | e] eqn:Hj; [| left; eexists; reflexivity].
  right.
  destruct (request_dates req) as [[startDate endDatePtr] | e] eqn:Hd.
  - right. split; [apply (ShouldBindUri_inv c key Hu) |].
    exists req. split; [apply (ShouldBindJSON_inv c req Hj) |].
    apply (request_dates_inv c req startDate endDatePtr Hj Hd).
  - left. exists req, e. split; [apply (ShouldBindJSON_inv c req Hj) | auto].
Qed.

(** Create answers 400 without the store, or the key and the body are
    valid. *)
Lemma CreateSubscription_cases :
  (exists e, CreateSubscription c = Reply (JSON StatusBadRequest (H_error e)))
  \/ (valid_key c /\ exists req, Body c = Some req /\ valid_request req).
Proof.
  destruct CreateSubscription_validation
    as [[e He] | [(req & e & _ & _ & He) | Hvalid]];
    [left | left | right; exact Hvalid]; rewrite He; eexists; reflexivity.
Qed.

Lemma UpdateSubscription_cases :
  (exists e, UpdateSubscription c = Reply (JSON StatusBadRequest (H_error e)))
  \/ (valid_key c /\ exists req, Body c = Some req /\ valid_request req).
Proof.
  destruct UpdateSubscription_validation
    as [[e He] | [(req & e & _ & _ & He) | Hvalid]];
    [left | left | right; exact Hvalid]; rewrite He; eexists; reflexivity.
Qed.

End Validation.

(* ===================================================================== *)
(** ** The four keyed handlers, served *)
(* ===================================================================== *)

Section Serving.

Variable tbl : Table.
Variable c : Context.
Hypothesis key_ok : valid_key c.

Lemma serve_GetSubscription :
  serve (GetSubscription c) tbl
  = let k := (Param_user_id c, Param_service_name c) in
    match tbl !! k with
    | Some r => (tbl, JSON StatusOK (OneSubscription (shape (tuple k r))))
    | None => (tbl, not_found)
    end.
Proof.
  unfold GetSubscription. rewrite (ShouldBindUri_valid c key_ok).
  cbn [serve exec key_UserID key_ServiceName].
  rewrite (pg_uuid_canonical _ (proj1 key_ok)).
  destruct (tbl !! (Param_user_id c, Param_service_name c)); reflexivity.
Qed.


Variable req : SubscriptionRequest.
Hypothesis body_ok : Body c = Some req.
Hypothesis req_ok : valid_request req.

(** A valid request gets as far as the store. *)
Lemma valid_request_reaches_store :
  reaches_store (CreateSubscription c) = true
  /\ reaches_store (UpdateSubscription c) = true.
Proof.
  unfold CreateSubscription, UpdateSubscription.
  rewrite (ShouldBindUri_valid c key_ok).
  rewrite (ShouldBindJSON_valid c req body_ok req_ok).
  rewrite (request_dates_valid req req_ok). split; reflexivity.
Qed.

(** A price that the column cannot hold fails the statement. *)
Lemma serve_out_of_range :
  fits_INTEGER (req_Price req) = false ->
  serve (CreateSubscription c) tbl = (tbl, internal_error)
  /\ serve (UpdateSubscription c) tbl = (tbl, internal_error).
Proof.
  intros Hbig. unfold CreateSubscription, UpdateSubscription.
  rewrite (ShouldBindUri_valid c key_ok).
  rewrite (ShouldBindJSON_valid c req body_ok req_ok).
  rewrite (request_dates_valid req req_ok).
  cbn [serve exec key_UserID].
  rewrite (pg_uuid_canonical _ (proj1 key_ok)), Hbig. split; reflexivity.
Qed.

Hypothesis price_ok : fits_INTEGER (req_Price req) = true.

Lemma serve_CreateSubscription :
  serve (CreateSubscription c) tbl
  = let k := (Param_user_id c, req_ServiceName req) in
    match tbl !! k with
    | Some _ => (tbl, internal_error)
    | None =>
        (<[k := requested_row req]> tbl,
         JSON StatusCreated (OneSubscription (shape (tuple k (requested_row req)))))
    end.
Proof.
  unfold CreateSubscription. rewrite (ShouldBindUri_valid c key_ok).
  rewrite (ShouldBindJSON_valid c req body_ok req_ok).
  rewrite (request_dates_valid req req_ok).
  cbn [serve exec key_UserID].
  rewrite (pg_uuid_canonical _ (proj1 key_ok)), price_ok. cbn [negb].
  destruct (tbl !! (Param_user_id c, req_ServiceName req)); reflexivity.
Qed.

Lemma serve_UpdateSubscription :
  serve (UpdateSubscription c) tbl
  = let k := (Param_user_id c, req_ServiceName req) in
    match tbl !! k with
    | Some _ =>
        (<[k := requested_row req]> tbl,
         JSON StatusOK (OneSubscription (shape (tuple k (requested_row req)))))
    | None => (tbl, not_found)
    end.
Proof.
  unfold UpdateSubscription. rewrite (ShouldBindUri_valid c key_ok).
  rewrite (ShouldBindJSON_valid c req body_ok req_ok).
  rewrite (request_dates_valid req req_ok).
  cbn [serve exec key_UserID].
  rewrite (pg_uuid_canonical _ (proj1 key_ok)), price_ok. cbn [negb].
  destruct (tbl !! (Param_user_id c, req_ServiceName req)); reflexivity.
Qed.

End Serving.

(* ===================================================================== *)
(** ** The total cost *)
(* ===================================================================== *)

Section TotalCost.



Lemma sum_of_prices_empty (keep : Key -> Row -> bool) :
  sum_of_prices keep ∅ = 0.
Proof. unfold sum_of_prices. apply map_fold_empty. Qed.




End TotalCost.

(* ===================================================================== *)
(** ** The two filtered handlers, served *)
(* ===================================================================== *)

Section Filtered.

Variable tbl : Table.
Variable c : Context.

(** A UUID never prints as the empty text. *)
Lemma pg_uuid_not_empty (text u : string) :
  pg_uuid text = Some u -> String.eqb u "" = false.
Proof.
  unfold pg_uuid. destruct (uuid_in text) as [digits |]; [| discriminate].
  intros [= <-]. unfold uuid_out.
  destruct (String.substring 0 8 digits); reflexivity.
Qed.

(** The list handler, served: the [user_id] filter is read by the store,
    which fails the statement when the text is no UUID. *)
Lemma serve_ListSubscriptions :
  serve (ListSubscriptions c) tbl
  = match read_user_filter (Query c "user_id") with
    | Some u =>
        (tbl,
         JSON StatusOK (Subscriptions (List.map shape
           (List.map (fun kr => tuple (fst kr) (snd kr))
              (lines tbl (fun k _ => listed u (Query c "service_name") k))))))
    | None => (tbl, internal_error)
    end.
Proof.
  unfold ListSubscriptions, read_user_filter, listed.
  destruct (String.eqb (Query c "user_id") "") eqn:Hu.
  - destruct (String.eqb (Query c "service_name") ""); reflexivity.
  - destruct (pg_uuid (Query c "user_id")) as [u |] eqn:Hread.
    + pose proof (pg_uuid_not_empty _ _ Hread) as Hne.
      destruct (String.eqb (Query c "service_name") "");
        cbn [negb andb serve exec read_filter]; rewrite Hread, Hne; reflexivity.
    + destruct (String.eqb (Query c "service_name") "");
        cbn [negb andb serve exec read_filter]; rewrite Hread; reflexivity.
Qed.


End Filtered.

(* ===================================================================== *)
(** ** How a Create and an Update end *)
(* ===================================================================== *)

Section Served.

Variable tbl : Table.
Variable c : Context.

(** Create ends with a 400 of its validation, with a 500 and the table
    unchanged, or with the line of a valid request stored under a key that
    was free. *)
Lemma CreateSubscription_served :
  (exists e, CreateSubscription c = Reply (JSON StatusBadRequest (H_error e)))
  \/ serve (CreateSubscription c) tbl = (tbl, internal_error)
  \/ (valid_key c
      /\ exists req,
           Body c = Some req /\ valid_request req
           /\ fits_INTEGER (req_Price req) = true
           /\ tbl !! (Param_user_id c, req_ServiceName req) = None
           /\ serve (CreateSubscription c) tbl
              = (<[(Param_user_id c, req_ServiceName req) := requested_row req]> tbl,
                 JSON StatusCreated (OneSubscription
                   (shape (tuple (Param_user_id c, req_ServiceName req)
                             (requested_row req)))))).
Proof.
  destruct (CreateSubscription_cases c) as [He | [Hkey (req & Hb & Hv)]];
    [left; exact He | right].
  destruct (fits_INTEGER (req_Price req)) eqn:Hfits.
  - pose proof (serve_CreateSubscription tbl c Hkey req Hb Hv Hfits) as Hs.
    cbn zeta in Hs.
    destruct (tbl !! (Param_user_id c, req_ServiceName req)) eqn:Hk;
      [left; exact Hs | right].
    split; [exact Hkey |]. exists req. auto.
  - left. apply (serve_out_of_range tbl c Hkey req Hb Hv Hfits).
Qed.

(** Update ends with a 400 of its validation, with a 500 or a 404 and the
    table unchanged, or with the line of a valid request written over a
    line that was stored. *)
Lemma UpdateSubscription_served :
  (exists e, UpdateSubscription c = Reply (JSON StatusBadRequest (H_error e)))
  \/ serve (UpdateSubscription c) tbl = (tbl, internal_error)
  \/ serve (UpdateSubscription c) tbl = (tbl, not_found)
  \/ (valid_key c
      /\ exists req old,
           Body c = Some req /\ valid_request req
           /\ fits_INTEGER (req_Price req) = true
           /\ tbl !! (Param_user_id c, req_ServiceName req) = Some old
           /\ serve (UpdateSubscription c) tbl
              = (<[(Param_user_id c, req_ServiceName req) := requested_row req]> tbl,
                 JSON StatusOK (OneSubscription
                   (shape (tuple (Param_user_id c, req_ServiceName req)
                             (requested_row req)))))).
Proof.
  destruct (UpdateSubscription_cases c) as [He | [Hkey (req & Hb & Hv)]];
    [left; exact He | right].
  destruct (fits_INTEGER (req_Price req)) eqn:Hfits.
  - pose proof (serve_UpdateSubscription tbl c Hkey req Hb Hv Hfits) as Hs.
    cbn zeta in Hs.
    destruct (tbl !! (Param_user_id c, req_ServiceName req)) as [old |] eqn:Hk;
      [right; right | right; left; exact Hs].
    split; [exact Hkey |]. exists req, old. auto.
  - left. apply (serve_out_of_range tbl c Hkey req Hb Hv Hfits).
Qed.

End Served.

(* ===================================================================== *)
(** ** Properties of the service *)
(* ===================================================================== *)




(** A total-cost request with a date that is neither empty nor of the
    pattern is answered 400 without the store. *)
Lemma total_cost_rejects_malformed (c : Context) :
  (Query c "start_date" <> "" /\ month_year_pattern (Query c "start_date") = false)
  \/ (Query c "end_date" <> "" /\ month_year_pattern (Query c "end_date") = false) ->
  exists e, GetTotalCost c = Reply (date_error e).
Proof.
  intros Hbad. unfold GetTotalCost, ShouldBindQuery.
  cbn [flt_UserID flt_ServiceName flt_StartDate flt_EndDate].
  destruct (parseMonthYear (Query c "start_date")) as [t |] eqn:Hs;
    [| eexists; reflexivity].
  destruct (parseMonthYear (Query c "end_date")) as [t' |] eqn:He;
    [| eexists; reflexivity].
  exfalso. apply parseMonthYear_inv in Hs, He.
  destruct Hbad as [[Hne Hp] | [Hne Hp]].
  - destruct Hs as [[? _] | [? _]]; congruence.
  - destruct He as [[? _] | [? _]]; congruence.
Qed.

(** C2, at the inputs where the handler departs from it.  A total-cost
    request without [start_date] is not refused: the empty string is read
    as the zero instant, the statement runs with January of year 1 as the
    start of the period, and the answer is 200.  The same holds without
    [end_date], where nothing is counted and the total is 0. *)
Theorem total_cost_accepts_missing_dates :
  parseMonthYear "" = Ok time.zero
  /\ reaches_store (GetTotalCost (period_request "" "06-2024")) = true
  /\ serve (GetTotalCost (period_request "" "06-2024")) sample_table
     = (sample_table, JSON StatusOK (Total (mkTotalCostResponse 500)))
  /\ serve (GetTotalCost (period_request "06-2024" "")) sample_table
     = (sample_table, JSON StatusOK (Total (mkTotalCostResponse 0))).
Proof.
  split; [reflexivity |]. split; [reflexivity |].
  split; reflexivity.
Qed.

(** C3. A Create request is answered 400 when its price is negative, when
    its service name or start date is missing, when a supplied date does
    not match the MM-YYYY pattern, or when the path user id is not a
    syntactically valid UUID; the handler answers before it reaches the
    store, so the table is as it was. *)
Theorem create_rejects_invalid_before_storage (c : Context) (req : SubscriptionRequest) :
  Body c = Some req ->
  req_Price req < 0
  \/ req_ServiceName req = ""
  \/ req_StartDate req = ""
  \/ month_year_pattern (req_StartDate req) = false
  \/ (req_EndDate req <> "" /\ month_year_pattern (req_EndDate req) = false)
  \/ is_uuid (Param_user_id c) = false ->
  (exists e, CreateSubscription c = Reply (JSON StatusBadRequest (H_error e)))
  /\ reaches_store (CreateSubscription c) = false
  /\ forall tbl : Table, fst (serve (CreateSubscription c) tbl) = tbl.
Proof.
  intros Hbody Hbad.
  assert (exists e, CreateSubscription c = Reply (JSON StatusBadRequest (H_error e)))
    as [e He].
  { destruct (CreateSubscription_cases c) as [Hrej | [[Hu _] [req' [Hb Hv]]]];
      [exact Hrej | exfalso].
    rewrite Hbody in Hb. injection Hb as <-.
    destruct Hv as (Hs & Hp & Hd & Hend).
    destruct Hbad as [H | [H | [H | [H | [[Hne H] | H]]]]];
      try congruence; try lia.
    - rewrite H in Hd. discriminate Hd.
    - destruct Hend; congruence. }
  split; [eauto |]. rewrite He. split; [reflexivity |]. intros tbl. reflexivity.
Qed.

Lemma create_rejects_invalid_before_storage_witness :
  (exists e,
     CreateSubscription
       (mkContext netflix_user "Netflix" []
          (Some (mkSubscriptionRequest "Netflix" 500 "13-2024" "")))
     = Reply (JSON StatusBadRequest (H_error e)))
  /\ reaches_store
       (CreateSubscription
          (mkContext netflix_user "Netflix" []
             (Some (mkSubscriptionRequest "Netflix" 500 "13-2024" "")))) = false
  /\ forall tbl : Table,
       fst (serve (CreateSubscription
                     (mkContext netflix_user "Netflix" []
                        (Some (mkSubscriptionRequest "Netflix" 500 "13-2024" ""))))
              tbl) = tbl.
Proof.
  apply (create_rejects_invalid_before_storage
           (mkContext netflix_user "Netflix" []
              (Some (mkSubscriptionRequest "Netflix" 500 "13-2024" "")))
           (mkSubscriptionRequest "Netflix" 500 "13-2024" "")).
  - reflexivity.
  - right. right. right. left. reflexivity.
Defined.

(** List and TotalCost apply no format check to the [user_id] query
    parameter: when it is present, List always runs its statement,
    TotalCost runs its statement whenever both dates match the pattern,
    and in both the text is handed to the store as it came; the only
    answers that TotalCost gives without the store are the two date-format
    errors. *)
Lemma query_user_id_reaches_store (c : Context) :
  Query c "user_id" <> "" ->
  (reaches_store (ListSubscriptions c) = true
   /\ user_id_sent (ListSubscriptions c) = Some (Query c "user_id"))
  /\ (month_year_pattern (Query c "start_date") = true ->
      month_year_pattern (Query c "end_date") = true ->
      reaches_store (GetTotalCost c) = true
      /\ user_id_sent (GetTotalCost c) = Some (Query c "user_id"))
  /\ (forall r : Response,
        rejected (GetTotalCost c) = Some r ->
        r = date_error BadStartDate \/ r = date_error BadEndDate).
Proof.
  intros Hpresent. apply String.eqb_neq in Hpresent.
  split; [| split].
  - unfold ListSubscriptions. rewrite Hpresent.
    destruct (String.eqb (Query c "service_name") ""); split; reflexivity.
  - intros Hstart Hend. unfold GetTotalCost, ShouldBindQuery.
    cbn [flt_UserID flt_ServiceName flt_StartDate flt_EndDate].
    rewrite (parseMonthYear_pattern _ Hstart), (parseMonthYear_pattern _ Hend).
    rewrite Hpresent.
    destruct (String.eqb (Query c "service_name") ""); split; reflexivity.
  - intros r. unfold GetTotalCost, ShouldBindQuery.
    cbn [flt_UserID flt_ServiceName flt_StartDate flt_EndDate].
    destruct (parseMonthYear (Query c "start_date"));
      [| intros [= <-]; left; reflexivity].
    destruct (parseMonthYear (Query c "end_date"));
      [| intros [= <-]; right; reflexivity].
    rewrite Hpresent.
    destruct (String.eqb (Query c "service_name") ""); discriminate.
Qed.

(** C4, at an input where the handlers depart from it.  A [user_id] query
    parameter that is no UUID is not refused by a format check: neither
    List nor TotalCost answers without the store, both hand the text to
    the store as the filter of their statement, the store cannot read it
    as a UUID, and the answer is 500 instead of 400. *)
Theorem query_user_id_is_not_checked :
  is_uuid "not-a-uuid" = false
  /\ rejected (ListSubscriptions (filtered_request "not-a-uuid")) = None
  /\ user_id_sent (ListSubscriptions (filtered_request "not-a-uuid"))
     = Some "not-a-uuid"
  /\ serve (ListSubscriptions (filtered_request "not-a-uuid")) sample_table
     = (sample_table, internal_error)
  /\ rejected (GetTotalCost (filtered_request "not-a-uuid")) = None
  /\ user_id_sent (GetTotalCost (filtered_request "not-a-uuid"))
     = Some "not-a-uuid"
  /\ serve (GetTotalCost (filtered_request "not-a-uuid")) sample_table
     = (sample_table, internal_error)
  /\ status internal_error = StatusInternalServerError.
Proof.
  split; [reflexivity |]. split; [reflexivity |]. split; [reflexivity |].
  split; [reflexivity |]. repeat split; reflexivity.
Qed.








(** C8. A successful Update rewrites one line in place: the line was stored
    before under the key that the response echoes, it is stored under that
    same key afterwards with the requested price and dates, the set of keys
    of the table is unchanged, and every other line is as it was. *)
Theorem update_preserves_key (tbl tbl' : Table) (c : Context) (r : Response) :
  serve (UpdateSubscription c) tbl = (tbl', r) ->
  status r = StatusOK ->
  exists (k : Key) (old new : Row) (sub : Subscription),
    tbl !! k = Some old
    /\ tbl' !! k = Some new
    /\ payload r = OneSubscription sub
    /\ (sub_UserID sub, sub_ServiceName sub) = k
    /\ fst k = Param_user_id c
    /\ dom tbl' = dom tbl
    /\ forall k' : Key, k' <> k -> tbl' !! k' = tbl !! k'.
Proof.
  intros Hserve Hok.
  destruct (UpdateSubscription_served tbl c)
    as [[e He] | [Hs | [Hs | (Hkey & req & old & Hb & Hv & Hfits & Hold & Hs)]]].
  { rewrite He in Hserve. cbn [serve] in Hserve.
    apply pair_equal_spec in Hserve. destruct Hserve as [_ <-].
    discriminate Hok. }
  { rewrite Hs in Hserve. apply pair_equal_spec in Hserve.
    destruct Hserve as [_ <-]. discriminate Hok. }
  { rewrite Hs in Hserve. apply pair_equal_spec in Hserve.
    destruct Hserve as [_ <-]. discriminate Hok. }
  rewrite Hs in Hserve. apply pair_equal_spec in Hserve.
  destruct Hserve as [<- <-].
  exists (Param_user_id c, req_ServiceName req), old, (requested_row req).
  eexists. split; [exact Hold |]. split; [apply lookup_insert_eq |].
  split; [reflexivity |]. split; [reflexivity |]. split; [reflexivity |].
  split.
  - rewrite dom_insert_L. apply elem_of_dom_2 in Hold.
    apply subseteq_union_1_L, singleton_subseteq_l, Hold.
  - intros k' Hne. apply lookup_insert_ne. congruence.
Qed.

Lemma update_preserves_key_witness :
  exists (k : Key) (old new : Row) (sub : Subscription),
    sample_table !! k = Some old
    /\ <[(netflix_user, "Netflix") := requested_row sample_request]> sample_table
       !! k = Some new
    /\ OneSubscription (shape (tuple (netflix_user, "Netflix")
                                 (requested_row sample_request)))
       = OneSubscription sub
    /\ (sub_UserID sub, sub_ServiceName sub) = k
    /\ fst k = netflix_user
    /\ dom (<[(netflix_user, "Netflix") := requested_row sample_request]>
              sample_table) = dom sample_table
    /\ forall k' : Key,
         k' <> k ->
         <[(netflix_user, "Netflix") := requested_row sample_request]>
           sample_table !! k' = sample_table !! k'.
Proof.
  apply (update_preserves_key sample_table _
           (mkContext netflix_user "Netflix" [] (Some sample_request))
           (JSON StatusOK (OneSubscription
              (shape (tuple (netflix_user, "Netflix")
                        (requested_row sample_request)))))).
  - reflexivity.
  - reflexivity.
Defined.

(** C9. A Create or Update request whose body has price 0 is answered 400:
    with a valid key the answer is the binding error that reports [Price]
    as failing [required].  A request that gets as far as the store has a
    strictly positive price. *)
Theorem zero_price_is_rejected (c : Context) (req : SubscriptionRequest) :
  Body c = Some req ->
  (req_Price req = 0 ->
   (exists e, CreateSubscription c = Reply (JSON StatusBadRequest (H_error e)))
   /\ (exists e, UpdateSubscription c = Reply (JSON StatusBadRequest (H_error e)))
   /\ (valid_key c ->
       exists errs,
         In (mkFieldError "Price" "required") errs
         /\ CreateSubscription c = Reply (bind_error (ValidationErrors errs))
         /\ UpdateSubscription c = Reply (bind_error (ValidationErrors errs))))
  /\ (reaches_store (CreateSubscription c) = true -> 0 < req_Price req)
  /\ (reaches_store (UpdateSubscription c) = true -> 0 < req_Price req).
Proof.
  intros Hbody. split; [intros Hzero; split; [| split] | split].
  - destruct (CreateSubscription_cases c) as [Hrej | [_ [req' [Hb Hv]]]];
      [exact Hrej | exfalso].
    rewrite Hbody in Hb. injection Hb as <-. destruct Hv as (_ & Hp & _). lia.
  - destruct (UpdateSubscription_cases c) as [Hrej | [_ [req' [Hb Hv]]]];
      [exact Hrej | exfalso].
    rewrite Hbody in Hb. injection Hb as <-. destruct Hv as (_ & Hp & _). lia.
  - intros Hkey.
    exists (validate_SubscriptionRequest req). split.
    + unfold validate_SubscriptionRequest. rewrite Hzero. cbn [Z.eqb].
      apply in_or_app. right. left. reflexivity.
    + assert (ShouldBindJSON c = Err (ValidationErrors (validate_SubscriptionRequest req)))
        as Hj.
      { unfold ShouldBindJSON, validated. rewrite Hbody.
        unfold validate_SubscriptionRequest. rewrite Hzero. cbn [Z.eqb].
        destruct (required_string "ServiceName" (req_ServiceName req));
          reflexivity. }
      unfold CreateSubscription, UpdateSubscription.
      rewrite (ShouldBindUri_valid c Hkey), Hj. split; reflexivity.
  - intros Hrun.
    destruct (CreateSubscription_cases c) as [[e He] | [_ [req' [Hb Hv]]]].
    + rewrite He in Hrun. discriminate Hrun.
    + rewrite Hbody in Hb. injection Hb as <-. apply Hv.
  - intros Hrun.
    destruct (UpdateSubscription_cases c) as [[e He] | [_ [req' [Hb Hv]]]].
    + rewrite He in Hrun. discriminate Hrun.
    + rewrite Hbody in Hb. injection Hb as <-. apply Hv.
Qed.

Lemma zero_price_is_rejected_witness :
  (exists e,
     CreateSubscription
       (mkContext netflix_user "Netflix" []
          (Some (mkSubscriptionRequest "Netflix" 0 "03-2024" "")))
     = Reply (JSON StatusBadRequest (H_error e)))
  /\ (exists e,
        UpdateSubscription
          (mkContext netflix_user "Netflix" []
             (Some (mkSubscriptionRequest "Netflix" 0 "03-2024" "")))
        = Reply (JSON StatusBadRequest (H_error e))).
Proof.
  pose proof (zero_price_is_rejected
                (mkContext netflix_user "Netflix" []
                   (Some (mkSubscriptionRequest "Netflix" 0 "03-2024" "")))
                (mkSubscriptionRequest "Netflix" 0 "03-2024" "")
                eq_refl) as [Hzero _].
  destruct (Hzero eq_refl) as (Hc & Hu & _). split; assumption.
Defined.




(* ===================================================================== *)
(** ** The date helpers *)
(* ===================================================================== *)

Section DateHelpers.

Lemma digit_char_inv (d : Z) :
  0 <= d <= 9 -> is_digit (digit_char d) = true /\ digit_val (digit_char d) = d.
Proof.
  intros Hd.
  assert ((is_digit (digit_char d) && (digit_val (digit_char d) =? d)) = true)
    as H.
  { revert d Hd. apply forall_digits. reflexivity. }
  apply andb_prop in H. destruct H as [H1 H2]. apply Z.eqb_eq in H2. auto.
Qed.

(** The string that an instant of a four-digit year prints as. *)
Lemma Format_four_digit_year (t : Time) :
  four_digit_year t ->
  month_year_pattern (Format_01_2006 t) = true
  /\ first_of_month (Format_01_2006 t) = mkTime (Year t) (Month t) 1 0.
Proof.
  intros [Hm Hy]. unfold Format_01_2006.
  set (a := Month t / 10). set (b := Month t mod 10).
  set (y1 := Year t / 1000). set (y2 := Year t / 100 mod 10).
  set (y3 := Year t / 10 mod 10). set (y4 := Year t mod 10).
  assert (Month t = 10 * a + b) as Em by (subst a b; apply Z.div_mod; lia).
  assert (0 <= a <= 9) as Ha
    by (subst a; split; [apply Z.div_pos | apply Z.div_le_upper_bound]; lia).
  assert (0 <= b <= 9) as Hb by (subst b; pose proof (Z.mod_pos_bound (Month t) 10); lia).
  assert (Year t = 1000 * y1 + 100 * y2 + 10 * y3 + y4) as Ey.
  { subst y1 y2 y3 y4.
    assert (Year t / 10 / 10 = Year t / 100) as E100
      by (rewrite Z.div_div by lia; reflexivity).
    assert (Year t / 100 / 10 = Year t / 1000) as E1000
      by (rewrite Z.div_div by lia; reflexivity).
    pose proof (Z.div_mod (Year t) 10 ltac:(lia)) as D0.
    pose proof (Z.div_mod (Year t / 10) 10 ltac:(lia)) as D1.
    pose proof (Z.div_mod (Year t / 100) 10 ltac:(lia)) as D2.
    rewrite E100 in D1. rewrite E1000 in D2. lia. }
  assert (0 <= y1 <= 9) as H1.
  { subst y1. split; [apply Z.div_pos; lia |].
    assert (Year t / 1000 < 10) by (apply Z.div_lt_upper_bound; lia). lia. }
  assert (0 <= y2 <= 9) as H2 by (subst y2; pose proof (Z.mod_pos_bound (Year t / 100) 10); lia).
  assert (0 <= y3 <= 9) as H3 by (subst y3; pose proof (Z.mod_pos_bound (Year t / 10) 10); lia).
  assert (0 <= y4 <= 9) as H4 by (subst y4; pose proof (Z.mod_pos_bound (Year t) 10); lia).
  rewrite Em, Ey. rewrite appendInt_2, appendInt_4 by assumption.
  destruct (digit_char_inv a Ha) as [Da Va], (digit_char_inv b Hb) as [Db Vb],
    (digit_char_inv y1 H1) as [D1 V1], (digit_char_inv y2 H2) as [D2 V2],
    (digit_char_inv y3 H3) as [D3 V3], (digit_char_inv y4 H4) as [D4 V4].
  split.
  - cbv [append]; cbn [month_year_pattern]. rewrite Da, Db, D1, D2, D3, D4, Va, Vb.
    cbn [andb Ascii.eqb Bool.eqb].
    apply andb_true_intro. split; apply Z.leb_le; lia.
  - unfold first_of_month, pattern_year, pattern_month, digit_at.
    cbv [append]; cbn [String.get Nat.eqb]. rewrite Va, Vb, V1, V2, V3, V4.
    reflexivity.
Qed.

End DateHelpers.

(** X1. [parseMonthYear] accepts the empty string, as the zero instant,
    and the strings of the MM-YYYY pattern, each as the first instant of
    the month it denotes; every other string is an error. *)
Theorem parseMonthYear_accepts_exactly (s : string) :
  (s = "" -> parseMonthYear s = Ok time.zero)
  /\ (month_year_pattern s = true -> parseMonthYear s = Ok (first_of_month s))
  /\ ((exists t, parseMonthYear s = Ok t)
      <-> s = "" \/ month_year_pattern s = true).
Proof.
  split; [intros ->; reflexivity |].
  split; [apply parseMonthYear_pattern |]. split.
  - intros [t Ht]. destruct (parseMonthYear_inv s t Ht) as [[? _] | [? _]]; auto.
  - intros [-> | Hp]; [exists time.zero; reflexivity |].
    exists (first_of_month s). apply parseMonthYear_pattern, Hp.
Qed.

(** X2. An instant of a month 1-12 in a year 0-9999 prints as a string of
    the pattern, and that string parses back to the instant truncated to
    the first of its month; the day and the time of day do not show. *)
Theorem format_then_parse (t : Time) :
  four_digit_year t ->
  month_year_pattern (formatMonthYear t) = true
  /\ parseMonthYear (formatMonthYear t) = Ok (toFirstDayOfMonth t)
  /\ formatMonthYear (toFirstDayOfMonth t) = formatMonthYear t.
Proof.
  intros Ht. destruct (Format_four_digit_year t Ht) as [Hp Hf].
  unfold formatMonthYear. split; [exact Hp |]. split; [| reflexivity].
  rewrite (parseMonthYear_pattern _ Hp), Hf. reflexivity.
Qed.

Lemma format_then_parse_witness :
  month_year_pattern (formatMonthYear (mkTime 2024 3 17 45000)) = true
  /\ parseMonthYear (formatMonthYear (mkTime 2024 3 17 45000))
     = Ok (toFirstDayOfMonth (mkTime 2024 3 17 45000))
  /\ formatMonthYear (toFirstDayOfMonth (mkTime 2024 3 17 45000))
     = formatMonthYear (mkTime 2024 3 17 45000).
Proof.
  apply (format_then_parse (mkTime 2024 3 17 45000)).
  unfold four_digit_year. cbn. lia.
Defined.

(* ===================================================================== *)
(** ** What the handlers do to the table *)
(* ===================================================================== *)

Section Effects.

Variable tbl : Table.
Variable c : Context.

Lemma GetSubscription_reads : fst (serve (GetSubscription c) tbl) = tbl.
Proof.
  unfold GetSubscription. destruct (ShouldBindUri c) as [key |]; [| reflexivity].
  cbn [serve exec].
  destruct (pg_uuid (key_UserID key)) as [u |]; [| reflexivity].
  destruct (tbl !! (u, key_ServiceName key)); reflexivity.
Qed.

Lemma ListSubscriptions_reads : fst (serve (ListSubscriptions c) tbl) = tbl.
Proof.
  rewrite serve_ListSubscriptions.
  destruct (read_user_filter (Query c "user_id")); reflexivity.
Qed.

Lemma GetTotalCost_reads : fst (serve (GetTotalCost c) tbl) = tbl.
Proof.
  unfold GetTotalCost, ShouldBindQuery.
  cbn [flt_UserID flt_ServiceName flt_StartDate flt_EndDate].
  destruct (parseMonthYear (Query c "start_date")); [| reflexivity].
  destruct (parseMonthYear (Query c "end_date")); [| reflexivity].
  destruct (String.eqb (Query c "user_id") ""),
           (String.eqb (Query c "service_name") "");
    cbn [negb serve exec read_filter];
    try reflexivity;
    destruct (pg_uuid (Query c "user_id")); reflexivity.
Qed.

(** A handler that answers 400 answered without the store. *)
Lemma bad_request_is_a_reply (e : Endpoint) :
  status (snd (serve (handler e c) tbl)) = StatusBadRequest ->
  exists r, handler e c = Reply r.
Proof.
  destruct e; cbn [handler].
  - destruct (CreateSubscription_served tbl c)
      as [[x He] | [Hs | (_ & req & _ & _ & _ & _ & Hs)]];
      [eauto | rewrite Hs; discriminate | rewrite Hs; discriminate].
  - destruct (UpdateSubscription_served tbl c)
      as [[x He] | [Hs | [Hs | (_ & req & old & _ & _ & _ & _ & Hs)]]];
      [eauto | rewrite Hs; discriminate | rewrite Hs; discriminate
       | rewrite Hs; discriminate].
  - unfold GetSubscription. destruct (ShouldBindUri c) as [key |]; [| eauto].
    cbn [serve exec].
    destruct (pg_uuid (key_UserID key)) as [u |]; [| discriminate].
    destruct (tbl !! (u, key_ServiceName key)); discriminate.
  - unfold DeleteSubscription. destruct (ShouldBindUri c) as [key |]; [| eauto].
    cbn [serve exec].
    destruct (pg_uuid (key_UserID key)) as [u |]; [| discriminate].
    destruct (tbl !! (u, key_ServiceName key)); discriminate.
  - rewrite serve_ListSubscriptions.
    destruct (read_user_filter (Query c "user_id")); discriminate.
  - unfold GetTotalCost, ShouldBindQuery.
    cbn [flt_UserID flt_ServiceName flt_StartDate flt_EndDate].
    destruct (parseMonthYear (Query c "start_date")); [| eauto].
    destruct (parseMonthYear (Query c "end_date")); [| eauto].
    destruct (String.eqb (Query c "user_id") ""),
             (String.eqb (Query c "service_name") "");
      cbn [negb serve exec read_filter];
      try discriminate;
      destruct (pg_uuid (Query c "user_id")); discriminate.
Qed.

End Effects.

(** X3. Whatever the request and the table, a handler that answers 400 has
    answered from its validation alone: it ran no statement, and the table
    is as it was.  This holds for all six handlers. *)
Theorem bad_request_never_touches_store (e : Endpoint) (tbl : Table) (c : Context) :
  status (snd (serve (handler e c) tbl)) = StatusBadRequest ->
  reaches_store (handler e c) = false
  /\ fst (serve (handler e c) tbl) = tbl
  /\ forall tbl' : Table, serve (handler e c) tbl' = (tbl', snd (serve (handler e c) tbl)).
Proof.
  intros Hbad. destruct (bad_request_is_a_reply tbl c e Hbad) as [r Hr].
  rewrite Hr. repeat split.
Qed.

Lemma bad_request_never_touches_store_witness :
  reaches_store (handler Update
     (mkContext "not-a-uuid" "Netflix" [] (Some sample_request))) = false
  /\ fst (serve (handler Update
            (mkContext "not-a-uuid" "Netflix" [] (Some sample_request)))
          sample_table) = sample_table
  /\ forall tbl' : Table,
       serve (handler Update
                (mkContext "not-a-uuid" "Netflix" [] (Some sample_request))) tbl'
       = (tbl', snd (serve (handler Update
                       (mkContext "not-a-uuid" "Netflix" [] (Some sample_request)))
                     sample_table)).
Proof.
  apply (bad_request_never_touches_store Update sample_table
           (mkContext "not-a-uuid" "Netflix" [] (Some sample_request))).
  reflexivity.
Defined.

(** X4. Get, List and TotalCost only read: whatever the request, valid or
    not, the table after the request is the table before it. *)
Theorem reading_handlers_keep_the_table (tbl : Table) (c : Context) :
  fst (serve (GetSubscription c) tbl) = tbl
  /\ fst (serve (ListSubscriptions c) tbl) = tbl
  /\ fst (serve (GetTotalCost c) tbl) = tbl.
Proof.
  split; [apply GetSubscription_reads |].
  split; [apply ListSubscriptions_reads | apply GetTotalCost_reads].
Qed.

(* ===================================================================== *)
(** ** Writing and reading back *)
(* ===================================================================== *)

Section WriteRead.

(** The record shown for the line of a valid request is the request. *)
Lemma shape_requested (user_id : string) (req : SubscriptionRequest) :
  valid_request req ->
  shape (tuple (user_id, req_ServiceName req) (requested_row req))
  = mkSubscription (req_ServiceName req) (req_Price req) user_id
      (req_StartDate req) (req_EndDate req).
Proof.
  intros (_ & _ & Hd & He). unfold shape, tuple, requested_row, requested_end.
  cbn [fst snd col_service_name col_price col_user_id col_start_date
       col_end_date price start_date end_date].
  unfold formatMonthYear. rewrite (Format_pattern _ Hd).
  destruct He as [He | He].
  - rewrite He. reflexivity.
  - rewrite (pattern_not_empty _ He), (Format_pattern _ He). reflexivity.
Qed.

(** The line of a valid request is a line as the handlers write them. *)
Lemma requested_line_ok (c : Context) (req : SubscriptionRequest) :
  valid_key c -> valid_request req ->
  line_ok (Param_user_id c, req_ServiceName req) (requested_row req).
Proof.
  intros [Hu _] (Hs & Hp & Hd & He). unfold line_ok, requested_row, requested_end.
  cbn [fst snd price start_date end_date].
  repeat split; trivial.
  - exists (req_StartDate req). auto.
  - intros e. destruct (String.eqb (req_EndDate req) "") eqn:Hempty;
      [discriminate |].
    intros [= <-]. exists (req_EndDate req). split; [| reflexivity].
    destruct He as [He | He]; [| exact He].
    apply String.eqb_neq in Hempty. contradiction.
Qed.

End WriteRead.



(** X6. A Create whose key is taken is answered 500 with the table
    unchanged; hence sending any valid Create a second time is answered
    500 and changes nothing, whether the first one succeeded or not. *)
Theorem create_twice_is_an_internal_error (tbl : Table) (c : Context) (req : SubscriptionRequest) :
  valid_key c -> Body c = Some req -> valid_request req ->
  (forall old : Row,
     tbl !! (Param_user_id c, req_ServiceName req) = Some old ->
     serve (CreateSubscription c) tbl = (tbl, internal_error))
  /\ serve (CreateSubscription c) (fst (serve (CreateSubscription c) tbl))
     = (fst (serve (CreateSubscription c) tbl), internal_error)
  /\ status internal_error = StatusInternalServerError.
Proof.
  intros Hkey Hbody Hreq.
  destruct (fits_INTEGER (req_Price req)) eqn:Hfits.
  - pose proof (serve_CreateSubscription tbl c Hkey req Hbody Hreq Hfits)
      as Hserve.
    cbn zeta in Hserve. split; [| split; [| reflexivity]].
    + intros old Hold. rewrite Hserve, Hold. reflexivity.
    + rewrite (serve_CreateSubscription _ c Hkey req Hbody Hreq Hfits).
      cbn zeta. rewrite Hserve.
      destruct (tbl !! (Param_user_id c, req_ServiceName req)) as [old |] eqn:Hold;
        cbn [fst].
      * rewrite Hold. reflexivity.
      * rewrite lookup_insert_eq. reflexivity.
  - pose proof (fun t => proj1 (serve_out_of_range t c Hkey req Hbody Hreq Hfits))
      as Hserve.
    split; [| split; [| reflexivity]].
    + intros old _. apply Hserve.
    + rewrite !Hserve. reflexivity.
Qed.

Lemma create_twice_is_an_internal_error_witness :
  serve (CreateSubscription (mkContext netflix_user "Netflix" [] (Some sample_request)))
        sample_table
  = (sample_table, internal_error).
Proof.
  assert (valid_key (mkContext netflix_user "Netflix" [] (Some sample_request)))
    as Hkey by (split; [reflexivity | discriminate]).
  assert (valid_request sample_request) as Hreq.
  { split; [discriminate | split; [cbn; lia | split; [| right]; reflexivity]]. }
  exact (proj1 (create_twice_is_an_internal_error sample_table _ _ Hkey eq_refl
                  Hreq)
           (mkRow 500 (first_of_month "01-2024") None) eq_refl).
Defined.



(** X8. A valid Update of a stored line, with a price that the INTEGER
    column can hold, answers 200 with the request echoed field for field; a Get of the user id of the path and the
    service name of the body then returns that same record; and sending
    the Update again gives the same answer and the same table. *)
Theorem update_then_get (tbl : Table) (c g : Context) (req : SubscriptionRequest) (old : Row) :
  valid_key c -> Body c = Some req -> valid_request req ->
  fits_INTEGER (req_Price req) = true ->
  tbl !! (Param_user_id c, req_ServiceName req) = Some old ->
  Param_user_id g = Param_user_id c ->
  Param_service_name g = req_ServiceName req ->
  let updated :=
    JSON StatusOK (OneSubscription
      (mkSubscription (req_ServiceName req) (req_Price req) (Param_user_id c)
         (req_StartDate req) (req_EndDate req))) in
  let tbl' := <[(Param_user_id c, req_ServiceName req) := requested_row req]> tbl in
  serve (UpdateSubscription c) tbl = (tbl', updated)
  /\ serve (GetSubscription g) tbl' = (tbl', updated)
  /\ serve (UpdateSubscription c) tbl' = (tbl', updated).
Proof.
  intros Hkey Hbody Hreq Hfits Hold Hu Hs updated tbl'.
  assert (valid_key g) as Hg.
  { destruct Hkey as [Hv _], Hreq as (Hn & _). unfold valid_key.
    rewrite Hu, Hs. auto. }
  rewrite (serve_UpdateSubscription tbl c Hkey req Hbody Hreq Hfits),
    (serve_UpdateSubscription tbl' c Hkey req Hbody Hreq Hfits),
    (serve_GetSubscription tbl' g Hg).
  cbn zeta. rewrite Hu, Hs, Hold. subst tbl'. rewrite lookup_insert_eq.
  rewrite insert_insert_eq, (shape_requested _ req Hreq). repeat split.
Qed.

Lemma update_then_get_witness :
  serve (GetSubscription (mkContext netflix_user "Netflix" [] None))
        (<[(netflix_user, "Netflix") := requested_row sample_request]> sample_table)
  = (<[(netflix_user, "Netflix") := requested_row sample_request]> sample_table,
     JSON StatusOK (OneSubscription
       (mkSubscription "Netflix" 700 netflix_user "03-2024" "12-2024"))).
Proof.
  assert (valid_key (mkContext netflix_user "Spotify" [] (Some sample_request)))
    as Hkey by (split; [reflexivity | discriminate]).
  assert (valid_request sample_request) as Hreq.
  { split; [discriminate | split; [cbn; lia | split; [| right]; reflexivity]]. }
  exact (proj1 (proj2 (update_then_get sample_table
           (mkContext netflix_user "Spotify" [] (Some sample_request))
           (mkContext netflix_user "Netflix" [] None)
           sample_request (mkRow 500 (first_of_month "01-2024") None)
           Hkey eq_refl Hreq eq_refl eq_refl eq_refl eq_refl))).
Defined.

(* ===================================================================== *)
(** ** What the table holds *)
(* ===================================================================== *)

Section Invariant.

Lemma written_insert (tbl : Table) (k : Key) (r : Row) :
  written_by_handlers tbl -> line_ok k r -> written_by_handlers (<[k := r]> tbl).
Proof.
  intros Htbl Hline k' r' Hlook.
  destruct (decide (k = k')) as [<- | Hne].
  - rewrite lookup_insert_eq in Hlook. injection Hlook as <-. exact Hline.
  - rewrite lookup_insert_ne in Hlook by exact Hne. apply (Htbl k' r' Hlook).
Qed.

Lemma written_delete (tbl : Table) (k : Key) :
  written_by_handlers tbl -> written_by_handlers (delete k tbl).
Proof.
  intros Htbl k' r' Hlook. apply lookup_delete_Some in Hlook.
  apply (Htbl k' r'), Hlook.
Qed.

(** What a stored line shows when its dates are at the start of a month. *)
Lemma shape_shown (k : Key) (r : Row) :
  line_ok k r -> shown_dates (shape (tuple k r)).
Proof.
  intros (_ & _ & _ & [s [Hs Es]] & Hend). unfold shown_dates, shape, tuple.
  cbn [sub_StartDate sub_EndDate col_start_date col_end_date].
  unfold formatMonthYear. rewrite Es, (Format_pattern _ Hs).
  split; [exact Hs |].
  destruct (end_date r) as [e |]; [| left; reflexivity].
  destruct (Hend e eq_refl) as [s' [Hs' Es']].
  right. rewrite Es', (Format_pattern _ Hs'). exact Hs'.
Qed.

End Invariant.

(** X9. Every line that Create or Update writes has a UUID and a service
    name as its key, a strictly positive price, and dates at the first
    instant of a month; as no handler writes anything else, a table of such
    lines stays one under every request to any of the six handlers. *)
Theorem handlers_keep_lines_well_formed (e : Endpoint) (tbl : Table) (c : Context) :
  written_by_handlers tbl ->
  written_by_handlers (fst (serve (handler e c) tbl)).
Proof.
  intros Htbl. destruct e; cbn [handler].
  - destruct (CreateSubscription_served tbl c)
      as [[x He] | [Hs | (Hkey & req & Hb & Hv & _ & _ & Hs)]].
    + rewrite He. exact Htbl.
    + rewrite Hs. exact Htbl.
    + rewrite Hs. cbn [fst].
      apply written_insert; [exact Htbl | apply requested_line_ok; assumption].
  - destruct (UpdateSubscription_served tbl c)
      as [[x He] | [Hs | [Hs | (Hkey & req & old & Hb & Hv & _ & _ & Hs)]]].
    + rewrite He. exact Htbl.
    + rewrite Hs. exact Htbl.
    + rewrite Hs. exact Htbl.
    + rewrite Hs. cbn [fst].
      apply written_insert; [exact Htbl | apply requested_line_ok; assumption].
  - rewrite GetSubscription_reads. exact Htbl.
  - unfold DeleteSubscription. destruct (ShouldBindUri c) as [key |];
      [| exact Htbl].
    cbn [serve exec].
    destruct (pg_uuid (key_UserID key)) as [u |]; [| exact Htbl].
    destruct (tbl !! (u, key_ServiceName key)); cbn [fst];
      [apply written_delete |]; exact Htbl.
  - rewrite ListSubscriptions_reads. exact Htbl.
  - rewrite GetTotalCost_reads. exact Htbl.
Qed.

Lemma handlers_keep_lines_well_formed_witness :
  line_ok (netflix_user, "Netflix") (requested_row sample_request).
Proof.
  assert (written_by_handlers (∅ : Table)) as Hempty.
  { intros k r Hlook. rewrite lookup_empty in Hlook. discriminate Hlook. }
  apply (handlers_keep_lines_well_formed Create ∅
           (mkContext netflix_user "Netflix" [] (Some sample_request)) Hempty).
  reflexivity.
Defined.

(* ===================================================================== *)
(** ** Listing *)
(* ===================================================================== *)

Section Listing.

Variable tbl : Table.

(** The lines that a statement selects are the stored lines that pass its
    condition. *)
Lemma In_lines (keep : Key -> Row -> bool) (k : Key) (r : Row) :
  In (k, r) (lines tbl keep) <-> tbl !! k = Some r /\ keep k r = true.
Proof.
  unfold lines. rewrite filter_In. cbn [fst snd].
  rewrite <- (elem_of_map_to_list tbl k r), list_elem_of_In. reflexivity.
Qed.

(** The records that a list request is answered with. *)
Lemma In_listed (keep : Key -> Row -> bool) (sub : Subscription) :
  In sub (List.map shape (List.map (fun kr => tuple (fst kr) (snd kr))
                            (lines tbl keep)))
  <-> exists k r, tbl !! k = Some r /\ keep k r = true
                  /\ sub = shape (tuple k r).
Proof.
  rewrite List.map_map, in_map_iff. split.
  - intros [[k r] [<- Hin]]. apply In_lines in Hin. exists k, r. tauto.
  - intros (k & r & Hlook & Hkeep & ->). exists (k, r).
    split; [reflexivity | apply In_lines; auto].
Qed.

End Listing.

(** X10. On a table of lines as the handlers write them, every record in a
    response (the one of Create, Update and Get, each of List) shows its
    start date in the MM-YYYY pattern and its end date in the pattern or
    not at all. *)
Theorem responses_show_month_year (e : Endpoint) (tbl : Table) (c : Context) :
  written_by_handlers tbl ->
  match payload (snd (serve (handler e c) tbl)) with
  | OneSubscription sub => shown_dates sub
  | Subscriptions subs => Forall shown_dates subs
  | _ => True
  end.
Proof.
  intros Htbl. destruct e; cbn [handler].
  - destruct (CreateSubscription_served tbl c)
      as [[x He] | [Hs | (Hkey & req & Hb & Hv & _ & _ & Hs)]].
    + rewrite He. exact I.
    + rewrite Hs. exact I.
    + rewrite Hs. cbn [snd payload].
      apply shape_shown, requested_line_ok; assumption.
  - destruct (UpdateSubscription_served tbl c)
      as [[x He] | [Hs | [Hs | (Hkey & req & old & Hb & Hv & _ & _ & Hs)]]].
    + rewrite He. exact I.
    + rewrite Hs. exact I.
    + rewrite Hs. exact I.
    + rewrite Hs. cbn [snd payload].
      apply shape_shown, requested_line_ok; assumption.
  - unfold GetSubscription. destruct (ShouldBindUri c) as [key |]; [| exact I].
    cbn [serve exec].
    destruct (pg_uuid (key_UserID key)) as [u |]; [| exact I].
    destruct (tbl !! (u, key_ServiceName key)) as [r |] eqn:Hr;
      cbn [snd payload]; [| exact I].
    apply shape_shown, (Htbl _ _ Hr).
  - unfold DeleteSubscription. destruct (ShouldBindUri c) as [key |]; [| exact I].
    cbn [serve exec].
    destruct (pg_uuid (key_UserID key)) as [u |]; [| exact I].
    destruct (tbl !! (u, key_ServiceName key)); exact I.
  - rewrite serve_ListSubscriptions.
    destruct (read_user_filter (Query c "user_id")) as [u |]; [| exact I].
    cbn [snd payload].
    apply List.Forall_forall. intros sub Hin. apply In_listed in Hin.
    destruct Hin as (k & r & Hlook & _ & ->). apply shape_shown, (Htbl _ _ Hlook).
  - unfold GetTotalCost, ShouldBindQuery.
    cbn [flt_UserID flt_ServiceName flt_StartDate flt_EndDate].
    destruct (parseMonthYear (Query c "start_date")); [| exact I].
    destruct (parseMonthYear (Query c "end_date")); [| exact I].
    destruct (String.eqb (Query c "user_id") ""),
             (String.eqb (Query c "service_name") "");
      cbn [negb serve exec read_filter];
      try exact I;
      destruct (pg_uuid (Query c "user_id")); exact I.
Qed.

Lemma responses_show_month_year_witness :
  match payload (snd (serve (handler List (filtered_request netflix_user))
                        sample_table)) with
  | OneSubscription sub => shown_dates sub
  | Subscriptions subs => Forall shown_dates subs
  | _ => True
  end.
Proof.
  apply (responses_show_month_year List sample_table
           (filtered_request netflix_user)).
  intros k r Hlook. unfold sample_table in Hlook.
  apply lookup_singleton_Some in Hlook. destruct Hlook as [<- <-].
  split; [reflexivity |]. split; [discriminate |]. split; [cbn; lia |].
  split; [exists "01-2024"; split; reflexivity | discriminate].
Defined.



Section Filters.




End Filters.



(* ===================================================================== *)
(** ** Totals *)
(* ===================================================================== *)

Section Totals.

(** The order of instants, field by field. *)
Lemma leb_spec (t u : Time) :
  leb t u = true
  <-> Year t < Year u
      \/ (Year t = Year u
          /\ (Month t < Month u
              \/ (Month t = Month u
                  /\ (Day t < Day u
                      \/ (Day t = Day u /\ Clock t <= Clock u))))).
Proof.
  unfold leb, time.compare.
  destruct (Z.compare_spec (Year t) (Year u));
    destruct (Z.compare_spec (Month t) (Month u));
    destruct (Z.compare_spec (Day t) (Day u));
    destruct (Z.compare_spec (Clock t) (Clock u));
    split; intros Hx; try reflexivity; try discriminate Hx; lia.
Qed.





End Totals.





(* ===================================================================== *)
(** ** More on writing and reading back *)
(* ===================================================================== *)

Section Shown.

(** No instant prints as the empty string. *)
Lemma formatMonthYear_not_empty (t : Time) : formatMonthYear t <> "".
Proof.
  unfold formatMonthYear, Format_01_2006.
  destruct (appendInt (Month t) 2); discriminate.
Qed.

End Shown.



(** X16. The record shown for a stored line carries an ["end_date"] field
    exactly when the line has an end date: a NULL end date is shown by
    leaving the field out, and no stored end date, whatever its value,
    prints as the empty string that [omitempty] would drop. *)
Theorem end_date_shown_iff_stored (k : Key) (r : Row) :
  field "end_date" (encode_Subscription (shape (tuple k r))) = None
  <-> end_date r = None.
Proof.
  unfold encode_Subscription, shape, tuple.
  cbn [sub_ServiceName sub_Price sub_UserID sub_StartDate sub_EndDate
       col_end_date].
  destruct (end_date r) as [e |].
  - pose proof (formatMonthYear_not_empty e) as Hne.
    apply String.eqb_neq in Hne. rewrite Hne. split; discriminate.
  - split; reflexivity.
Qed.

(** X17. [RunSeeds] first counts the lines.  When the count fails it
    reports that error and nothing is changed.  When the count is answered
    with the number of lines: a table that has lines is left alone and no
    error is reported, whatever the seed file and the store would do, so
    once a run has left lines in the table every later run changes
    nothing; on an empty table with an unreadable seed file the error is
    reported and the table stays empty; and on an empty table with a
    readable file the script is handed to the store, whose table and
    error, if any, are the result. *)
Theorem RunSeeds_only_seeds_an_empty_table (Count : Table -> Outcome Z)
  (seeds_file : option string) (Exec : string -> Table -> Table * bool) (tbl : Table) :
  (Count tbl = Failed \/ Count tbl = ErrNoRows ->
   RunSeeds Count seeds_file Exec tbl = (tbl, Some SeedsCountFailed))
  /\ (Count tbl = count_lines tbl -> tbl <> ∅ ->
      RunSeeds Count seeds_file Exec tbl = (tbl, None))
  /\ ((forall t : Table, Count t = count_lines t) ->
      fst (RunSeeds Count seeds_file Exec tbl) <> ∅ ->
      RunSeeds Count seeds_file Exec (fst (RunSeeds Count seeds_file Exec tbl))
      = (fst (RunSeeds Count seeds_file Exec tbl), None))
  /\ (Count tbl = count_lines tbl -> tbl = ∅ -> seeds_file = None ->
      RunSeeds Count seeds_file Exec tbl = (∅, Some SeedsUnreadable))
  /\ (forall sqlBytes : string,
        Count tbl = count_lines tbl -> tbl = ∅ -> seeds_file = Some sqlBytes ->
        RunSeeds Count seeds_file Exec tbl
        = (fst (Exec sqlBytes ∅),
           if snd (Exec sqlBytes ∅) then Some SeedsFailed else None)).
Proof.
  assert (forall t : Table,
            Count t = count_lines t -> t <> ∅ ->
            RunSeeds Count seeds_file Exec t = (t, None)) as Hfull.
  { intros t Hcount Hne. unfold RunSeeds. rewrite Hcount. unfold count_lines.
    destruct (Z.eqb_spec (Z.of_nat (size t)) 0) as [Hzero | _]; [| reflexivity].
    exfalso. apply Hne, map_size_empty_iff. lia. }
  split; [| split; [apply Hfull | split; [| split]]].
  - unfold RunSeeds. intros [-> | ->]; reflexivity.
  - intros Hcount. apply Hfull, Hcount.
  - intros Hcount -> ->. unfold RunSeeds. rewrite Hcount. reflexivity.
  - intros sqlBytes Hcount -> ->. unfold RunSeeds. rewrite Hcount.
    cbn [count_lines]. rewrite map_size_empty. cbn [Z.of_nat Z.eqb].
    destruct (Exec sqlBytes ∅) as [tbl' []]; reflexivity.
Qed.

Lemma RunSeeds_only_seeds_an_empty_table_witness :
  RunSeeds count_lines None (fun _ t => (t, false)) sample_table
  = (sample_table, None)
  /\ RunSeeds (fun _ => Failed) None (fun _ t => (t, false)) sample_table
     = (sample_table, Some SeedsCountFailed).
Proof.
  split.
  - apply (proj1 (proj2 (RunSeeds_only_seeds_an_empty_table count_lines None
                           (fun _ t => (t, false)) sample_table)));
      [reflexivity | apply map_non_empty_singleton].
  - apply (proj1 (RunSeeds_only_seeds_an_empty_table (fun _ => Failed) None
                    (fun _ t => (t, false)) sample_table)).
    left. reflexivity.
Defined.

(** X18. The four handlers keyed by the path refuse a path user id that is
    no UUID with the same binding error, before anything else: the answer
    is 400 and reports [UserID] as failing [required] when it is empty and
    [uuid] otherwise. *)
Theorem keyed_handlers_refuse_bad_user_id (c : Context) :
  is_uuid (Param_user_id c) = false ->
  exists errs : list FieldError,
    In (mkFieldError "UserID"
          (if String.eqb (Param_user_id c) "" then "required" else "uuid")) errs
    /\ CreateSubscription c = Reply (bind_error (ValidationErrors errs))
    /\ UpdateSubscription c = Reply (bind_error (ValidationErrors errs))
    /\ GetSubscription c = Reply (bind_error (ValidationErrors errs))
    /\ DeleteSubscription c = Reply (bind_error (ValidationErrors errs))
    /\ status (bind_error (ValidationErrors errs)) = StatusBadRequest.
Proof.
  intros Hu.
  exists (validate_CompositeKey
            (mkCompositeKey (Param_user_id c) (Param_service_name c))).
  assert (ShouldBindUri c
          = Err (ValidationErrors (validate_CompositeKey
                   (mkCompositeKey (Param_user_id c) (Param_service_name c)))))
    as Hbind.
  { unfold ShouldBindUri, validated, validate_CompositeKey.
    cbn [key_UserID key_ServiceName]. rewrite Hu.
    destruct (String.eqb (Param_user_id c) ""); reflexivity. }
  split.
  - unfold validate_CompositeKey. cbn [key_UserID key_ServiceName]. rewrite Hu.
    destruct (String.eqb (Param_user_id c) ""); left; reflexivity.
  - unfold CreateSubscription, UpdateSubscription, GetSubscription,
      DeleteSubscription. rewrite Hbind. repeat split.
Qed.

Lemma keyed_handlers_refuse_bad_user_id_witness :
  exists errs : list FieldError,
    In (mkFieldError "UserID" "uuid") errs
    /\ GetSubscription (mkContext "11111111-1111-1111-1111-11111111111A"
                          "Netflix" [] None)
       = Reply (bind_error (ValidationErrors errs)).
Proof.
  destruct (keyed_handlers_refuse_bad_user_id
              (mkContext "11111111-1111-1111-1111-11111111111A" "Netflix" [] None)
              eq_refl)
    as (errs & Hin & _ & _ & Hget & _).
  exists errs. split; assumption.
Defined.

(** X19. Update validates as Create does: on every request the two either
    both get as far as the store, or both answer without it, and then with
    the same response. *)
Theorem update_validates_as_create (c : Context) :
  rejected (UpdateSubscription c) = rejected (CreateSubscription c)
  /\ reaches_store (UpdateSubscription c) = reaches_store (CreateSubscription c).
Proof.
  unfold UpdateSubscription, CreateSubscription.
  destruct (ShouldBindUri c); [| split; reflexivity].
  destruct (ShouldBindJSON c) as [req |]; [| split; reflexivity].
  destruct (request_dates req) as [[startDate endDatePtr] |]; split; reflexivity.
Qed.

(** X20. The binding of [price] checks a minimum and no maximum.  A Create
    or an Update that passes validation with a price above 2147483647, the
    largest that the INTEGER column holds, is refused by the store: the
    answer is 500 and the table is as it was, whether or not a line is
    stored under the key. *)
Theorem price_beyond_INTEGER_is_an_internal_error (tbl : Table) (c : Context) (req : SubscriptionRequest) :
  valid_key c -> Body c = Some req -> valid_request req ->
  2147483647 < req_Price req ->
  reaches_store (CreateSubscription c) = true
  /\ reaches_store (UpdateSubscription c) = true
  /\ serve (CreateSubscription c) tbl = (tbl, internal_error)
  /\ serve (UpdateSubscription c) tbl = (tbl, internal_error)
  /\ status internal_error = StatusInternalServerError.
Proof.
  intros Hkey Hbody Hreq Hbig.
  assert (fits_INTEGER (req_Price req) = false) as Hfits.
  { unfold fits_INTEGER. apply andb_false_iff. right. apply Z.leb_gt, Hbig. }
  destruct (valid_request_reaches_store c Hkey req Hbody Hreq) as [Hc Hu].
  destruct (serve_out_of_range tbl c Hkey req Hbody Hreq Hfits) as [Hsc Hsu].
  repeat split; assumption.
Qed.

Lemma price_beyond_INTEGER_is_an_internal_error_witness :
  serve (CreateSubscription update_big_price) sample_table
  = (sample_table, internal_error)
  /\ serve (UpdateSubscription update_big_price) sample_table
     = (sample_table, internal_error).
Proof.
  assert (valid_key update_big_price) as Hkey
    by (split; [reflexivity | discriminate]).
  assert (valid_request big_price_request) as Hreq.
  { split; [discriminate | split; [cbn; lia | split; [| left]; reflexivity]]. }
  destruct (price_beyond_INTEGER_is_an_internal_error sample_table
              update_big_price big_price_request Hkey eq_refl Hreq)
    as (_ & _ & Hc & Hu & _).
  { cbn. lia. }
  split; assumption.
Defined.
